(** * The product scraper of [scraper/src/scraper_core.py]

    A shallow embedding of the class [ProductScraper]: configuration
    loading, the selector micro-language, field extraction, pagination,
    product-id generation, the two-phase [scrape] loop and [get_results].

    Conventions of the embedding.
    - A Python [str] is a [string] whose characters are read as the code
      points 0..255; the character classes of [re] and [str.strip] are
      given for that range.
    - [self.products] and [self.errors] are fields of the state record
      [Scraper], threaded explicitly through every method.
    - What lies outside the file is taken as given: the interpreter
      (string hash, iteration order of a [set]), [urllib.parse], the HTTP
      client together with the HTML parser.  Each is a record of
      functions; the methods are defined in a section over them.
    - A call that can raise is a computation in [string + A]: [inl]
      carries [str(e)] of the exception.  A [try ... except Exception]
      block is such a computation, run by the handler of the [except];
      what no handler catches ends the method as [Raised]. *)

From Stdlib Require Import List String Ascii ZArith NArith Bool Lia DecimalString.
Import ListNotations.
Open Scope string_scope.
Open Scope list_scope.

Set Implicit Arguments.

(** ** Python strings *)

Module PyStr.

Definition code (c : ascii) : N := N_of_ascii c.

Definition between (lo hi : N) (c : ascii) : bool :=
  ((lo <=? code c) && (code c <=? hi))%N.

Definition cp (n : N) (c : ascii) : bool := (code c =? n)%N.

(** [A-Za-z0-9] *)
Definition ascii_alnum (c : ascii) : bool :=
  between 48 57 c || between 65 90 c || between 97 122 c.

(** The characters 128..255 for which [str.isalnum] holds: the letters,
    the feminine and masculine ordinals, micro, the superscript digits
    and the vulgar fractions. *)
Definition latin1_alnum (c : ascii) : bool :=
  cp 170 c || cp 178 c || cp 179 c || cp 181 c || cp 185 c || cp 186 c
  || between 188 190 c || between 192 214 c || between 216 246 c
  || between 248 255 c.

(** [\w] of a [str] pattern: alphanumeric or underscore. *)
Definition re_word (c : ascii) : bool :=
  ascii_alnum c || cp 95 c || latin1_alnum c.

(** [\d] of a [str] pattern: the decimal digits. *)
Definition re_digit (c : ascii) : bool := between 48 57 c.

(** [\s], and the characters removed by [str.strip()]. *)
Definition isspace (c : ascii) : bool :=
  between 9 13 c || between 28 32 c || cp 133 c || cp 160 c.

(** The class [[A-Za-z0-9_-]]. *)
Definition ascii_id_char (c : ascii) : bool :=
  ascii_alnum c || cp 95 c || cp 45 c.

Fixpoint map (f : ascii -> ascii) (s : string) : string :=
  match s with
  | EmptyString => EmptyString
  | String c s' => String (f c) (map f s')
  end.

Fixpoint filter (p : ascii -> bool) (s : string) : string :=
  match s with
  | EmptyString => EmptyString
  | String c s' => if p c then String c (filter p s') else filter p s'
  end.

Fixpoint forallb (p : ascii -> bool) (s : string) : bool :=
  match s with
  | EmptyString => true
  | String c s' => p c && forallb p s'
  end.

Fixpoint count (p : ascii -> bool) (s : string) : nat :=
  match s with
  | EmptyString => 0
  | String c s' => (if p c then 1 else 0) + count p s'
  end.

(** Truth value of a [str]: non-empty. *)
Definition truthy (s : string) : bool :=
  match s with EmptyString => false | String _ _ => true end.

Fixpoint lstrip (s : string) : string :=
  match s with
  | EmptyString => EmptyString
  | String c s' => if isspace c then lstrip s' else s
  end.

(** [rstrip] keeps a character when it is not a space or when something
    is kept after it. *)
Fixpoint rstrip (s : string) : string :=
  match s with
  | EmptyString => EmptyString
  | String c s' =>
      match rstrip s' with
      | EmptyString => if isspace c then EmptyString else String c EmptyString
      | r => String c r
      end
  end.

(** [s.strip()] *)
Definition strip (s : string) : string := rstrip (lstrip s).

(** [s.split(sep)] for a one-character separator. *)
Fixpoint split (sep : ascii) (s : string) : list string :=
  match s with
  | EmptyString => [EmptyString]
  | String c s' =>
      if Ascii.eqb c sep then EmptyString :: split sep s'
      else match split sep s' with
           | [] => [String c EmptyString]
           | w :: ws => String c w :: ws
           end
  end.

(** [re.sub(r'\s+', ' ', s)]: every maximal run of spaces becomes one
    blank. [in_run] tells that the previous character was a space. *)
Fixpoint collapse_spaces_from (in_run : bool) (s : string) : string :=
  match s with
  | EmptyString => EmptyString
  | String c s' =>
      if isspace c
      then if in_run then collapse_spaces_from true s'
           else String " " (collapse_spaces_from true s')
      else String c (collapse_spaces_from false s')
  end.

Definition collapse_spaces (s : string) : string := collapse_spaces_from false s.

(** [str(n)] for an [int]. *)
Definition of_Z (n : Z) : string := NilZero.string_of_int (Z.to_int n).

(** [s.startswith(p)], returning the rest. *)
Fixpoint drop_prefix (p s : string) : option string :=
  match p, s with
  | EmptyString, _ => Some s
  | String a p', String b s' => if Ascii.eqb a b then drop_prefix p' s' else None
  | String _ _, EmptyString => None
  end.

Fixpoint rev_onto (s acc : string) : string :=
  match s with
  | EmptyString => acc
  | String c s' => rev_onto s' (String c acc)
  end.

Definition rev (s : string) : string := rev_onto s EmptyString.

End PyStr.

(** ** Python dictionaries: insertion-ordered, keyed by [str] *)

Module Dict.

Section Ops.
Variable V : Type.

Definition t := list (string * V).

Fixpoint get (d : t) (k : string) : option V :=
  match d with
  | [] => None
  | (k', v) :: d' => if String.eqb k' k then Some v else get d' k
  end.

(** [d[k] = v]: an existing key keeps its position, a new one goes last. *)
Fixpoint set (d : t) (k : string) (v : V) : t :=
  match d with
  | [] => [(k, v)]
  | (k', v') :: d' =>
      if String.eqb k' k then (k, v) :: d' else (k', v') :: set d' k v
  end.

Definition mem (d : t) (k : string) : bool :=
  match get d k with Some _ => true | None => false end.

End Ops.

End Dict.

(** ** What the scraper is given *)

(** The six components of [urllib.parse.urlparse]. *)
Record ParseResult := {
  scheme : string;
  netloc : string;
  path : string;
  params : string;
  query : string;
  fragment : string
}.

(** [urllib.parse]. [urlencode] is the call with [doseq=True].
    [urlparse] and [urljoin] raise [ValueError] on a URL they cannot
    split (a bracketed host that is not closed, for one): [inl] carries
    the message.  What [parse_qs] returns is a [dict], so it holds each
    key once. *)
Record Urllib := {
  urlparse : string -> string + ParseResult;
  parse_qs : string -> Dict.t (list string);
  urlencode : Dict.t (list string) -> string;
  urlunparse : ParseResult -> string;
  urljoin : string -> string -> string + string;
  parse_qs_keys : forall qs, NoDup (List.map fst (parse_qs qs))
}.

(** The iteration order of a [set] of strings, as a function of the
    sequence of elements added to it.  The language fixes no order; it
    only promises each element once. *)
Record SetOrder := {
  iter_order :> list string -> list string;
  iter_nodup : forall added, NoDup (iter_order added);
  iter_elems : forall added x, In x (iter_order added) <-> In x added
}.

(** The interpreter process: [hash] on strings (salted per process) and
    the iteration order of its sets. *)
Record Interp := {
  py_hash : string -> Z;
  set_order : SetOrder
}.

(** An attribute of a parsed tag: a string, or a list for the
    multi-valued attributes ([class], [rel], ...). *)
Inductive AttrValue :=
| AStr (s : string)
| AList (l : list string).

(** A tag as the scraper reads it: its attributes and
    [get_text(strip=True)]. *)
Record Element := {
  attrs : Dict.t AttrValue;
  get_text_strip : string
}.

Inductive Response :=
| NetworkError (msg : string)
| HttpResponse (status_code : Z) (text : string).

(** The HTTP client and the HTML parser.
    [soup_select text css] is [BeautifulSoup(text, 'html.parser').select(css)];
    [inl] is the message of the exception it raises.
    [status_error url code] is [str(e)] of the [HTTPStatusError]. *)
Record Web := {
  client_get : string -> Response;
  status_error : string -> Z -> string;
  soup_select : string -> string -> string + list Element
}.

(** ** Configuration *)

Record DetailSelectors := {
  sel_name : option string;
  sel_description : option string;
  sel_brand : option string;
  sel_sub_category : option string;
  sel_price : option string;
  sel_currency : option string;
  sel_attributes : option (Dict.t string);
  sel_features : option string;
  sel_image_url : option string;
  sel_image_urls_all : option string
}.

Record Selectors := {
  product_links : option string;
  product_detail : option DetailSelectors
}.

Record Pagination := {
  max_pages : option Z;
  pag_type : option string;
  param_name : option string
}.

(** [delay_between_pages], counted in milliseconds where the file and
    [time.sleep] count seconds; the file may hold a negative number. *)
Record RateLimit := {
  delay_between_pages : option Z
}.

Record Extraction := {
  clean_text : option bool;
  parse_price : option bool;
  default_currency : option string;
  extract_all_images : option bool
}.

Record ErrorHandling := {
  skip_on_error : option bool;
  log_errors : option bool
}.

(** The mapping read by [yaml.safe_load]: every key may be missing. *)
Record ConfigFile := {
  f_site_name : option string;
  f_category : option string;
  f_start_urls : option (list string);
  f_selectors : option Selectors;
  f_pagination : option Pagination;
  f_rate_limit : option RateLimit;
  f_extraction : option Extraction;
  f_error_handling : option ErrorHandling
}.

(** The mapping after [_load_config]: the four required keys are there. *)
Record Config := {
  site_name : string;
  category : string;
  start_urls : list string;
  selectors : Selectors;
  pagination : option Pagination;
  rate_limit : option RateLimit;
  extraction : option Extraction;
  error_handling : option ErrorHandling
}.

(** [d.get(k, default)] on an optional section and an optional key. *)
Definition get_or (S A : Type) (sec : option S) (key : S -> option A) (default : A) : A :=
  match sec with
  | Some s => match key s with Some v => v | None => default end
  | None => default
  end.

(** ** Records, errors and the scraper object *)

Inductive Value :=
| VNone
| VStr (s : string)
| VFloat (literal : string)
| VList (l : list string)
| VDict (d : Dict.t (option string)).

Definition Product := Dict.t Value.

Record ErrorRecord := {
  err_url : string;
  err_error : string;
  err_type : string
}.

(** What the scraper asked of the outside, in order: [GetListing url] is
    the [client.get(url)] of [_scrape_product_links], [GetProduct url]
    the one of [_scrape_product_detail], [Sleep ms] a [time.sleep]. *)
Inductive Event :=
| GetListing (url : string)
| GetProduct (url : string)
| Sleep (ms : Z).

Record Scraper := {
  config : Config;
  products : list Product;
  errors : list ErrorRecord;
  client_log : list Event
}.

Definition log (e : Event) (s : Scraper) : Scraper :=
  {| config := config s; products := products s; errors := errors s;
     client_log := client_log s ++ [e] |}.

(** [self.errors.append({'url': url, 'error': msg, 'type': phase})] *)
Definition errors_append (url msg phase : string) (s : Scraper) : Scraper :=
  {| config := config s; products := products s;
     errors := errors s ++ [{| err_url := url; err_error := msg; err_type := phase |}];
     client_log := client_log s |}.

(** [self.products.append(p)] *)
Definition products_append (p : Product) (s : Scraper) : Scraper :=
  {| config := config s; products := products s ++ [p]; errors := errors s;
     client_log := client_log s |}.

(** How a call on the scraper ends: it returns [value], or the
    exception with message [msg] leaves it.  Either way [s] is the
    scraper as the call left it. *)
Inductive Run (A : Type) :=
| Returned (value : A) (s : Scraper)
| Raised (msg : string) (s : Scraper).

Arguments Raised {A} msg s.

Definition state (A : Type) (r : Run A) : Scraper :=
  match r with
  | Returned _ s => s
  | Raised _ s => s
  end.

Record Results := {
  r_site_name : string;
  r_category : string;
  r_total_products : nat;
  r_total_errors : nat;
  r_products : list Product;
  r_errors : list ErrorRecord
}.

(** ** Construction *)

Definition missing_field (field : string) : string :=
  "Missing required config field: " ++ field.

(** [_load_config], after the file has been read: the four keys are
    looked for in the order of [required]. *)
Definition _load_config (f : ConfigFile) : string + Config :=
  match f_site_name f with
  | None => inl (missing_field "site_name")
  | Some sn =>
  match f_category f with
  | None => inl (missing_field "category")
  | Some cat =>
  match f_start_urls f with
  | None => inl (missing_field "start_urls")
  | Some urls =>
  match f_selectors f with
  | None => inl (missing_field "selectors")
  | Some sels =>
      inr {| site_name := sn; category := cat; start_urls := urls;
             selectors := sels; pagination := f_pagination f;
             rate_limit := f_rate_limit f; extraction := f_extraction f;
             error_handling := f_error_handling f |}
  end end end end.

(** [ProductScraper.__init__] *)
Definition ProductScraper (f : ConfigFile) : string + Scraper :=
  match _load_config f with
  | inl e => inl e
  | inr c => inr {| config := c; products := []; errors := []; client_log := [] |}
  end.

(** ** The selector pattern [(.+)::attr\((.+)\)] *)

Definition newline (c : ascii) : bool := PyStr.cp 10 c.

Definition starts_with_paren (s : string) : bool :=
  match s with
  | String c _ => PyStr.cp 41 c
  | EmptyString => false
  end.

(** Second group and the closing parenthesis, matched at the start of
    [s]: the longest non-empty run without newline that a [)] follows. *)
Fixpoint attr_group (s : string) : option string :=
  match s with
  | EmptyString => None
  | String c s' =>
      if newline c then None
      else match attr_group s' with
           | Some b => Some (String c b)
           | None => if starts_with_paren s' then Some (String c EmptyString) else None
           end
  end.

(** [re.match(r'(.+)::attr\((.+)\)', selector)]: both groups are greedy,
    so the first is the longest prefix after which the rest matches. *)
Fixpoint attr_match (s : string) : option (string * string) :=
  match s with
  | EmptyString => None
  | String c s' =>
      if newline c then None
      else match attr_match s' with
           | Some (css, name) => Some (String c css, name)
           | None =>
               match PyStr.drop_prefix "::attr(" s' with
               | Some rest =>
                   match attr_group rest with
                   | Some name => Some (String c EmptyString, name)
                   | None => None
                   end
               | None => None
               end
           end
  end.

(** [elem.get(attr_name)] is truthy. *)
Definition attr_truthy (e : Element) (attr_name : string) : bool :=
  match Dict.get (attrs e) attr_name with
  | Some (AStr v) => PyStr.truthy v
  | Some (AList l) => match l with [] => false | _ :: _ => true end
  | None => false
  end.

(** [elem.get(attr_name, '').strip()]; a list has no [strip]. *)
Definition attr_stripped (e : Element) (attr_name : string) : string + string :=
  match Dict.get (attrs e) attr_name with
  | Some (AStr v) => inr (PyStr.strip v)
  | Some (AList _) => inl "'list' object has no attribute 'strip'"
  | None => inr (PyStr.strip "")
  end.

(** The comprehension
    [[elem.get(a, '').strip() for elem in elements if elem.get(a)]]. *)
Fixpoint attr_values (elements : list Element) (attr_name : string) : string + list string :=
  match elements with
  | [] => inr []
  | e :: rest =>
      if attr_truthy e attr_name then
        match attr_stripped e attr_name with
        | inl err => inl err
        | inr v =>
            match attr_values rest attr_name with
            | inl err => inl err
            | inr vs => inr (v :: vs)
            end
        end
      else attr_values rest attr_name
  end.

(** ** Cleaning and price parsing *)

(** [_clean_text] *)
Definition _clean_text (text : option string) : option string :=
  match text with
  | None => None
  | Some t =>
      if negb (PyStr.truthy t) then None
      else
        let t := PyStr.strip (PyStr.collapse_spaces t) in
        if PyStr.truthy t then Some t else None
  end.

(** [float] accepts a string of digits and points when it has a digit
    and at most one point. *)
Definition float_accepts (s : string) : bool :=
  (1 <=? PyStr.count PyStr.re_digit s)%nat && (PyStr.count (PyStr.cp 46) s <=? 1)%nat.

(** [_parse_price]; the float is kept as the literal it was read from. *)
Definition _parse_price (price_str : option string) : option string :=
  match price_str with
  | None => None
  | Some p =>
      if negb (PyStr.truthy p) then None
      else
        let price_clean := PyStr.filter (fun c => PyStr.re_digit c || PyStr.cp 46 c) p in
        if float_accepts price_clean then Some price_clean else None
  end.

Definition of_option (v : option string) : Value :=
  match v with
  | Some s => VStr s
  | None => VNone
  end.

Definition scalar_fields : list string := ["name"; "description"; "brand"; "sub_category"].

(** [detail_selectors[field]] for the four scalar fields. *)
Definition scalar_selector (ds : DetailSelectors) (field : string) : option string :=
  if String.eqb field "name" then sel_name ds
  else if String.eqb field "description" then sel_description ds
  else if String.eqb field "brand" then sel_brand ds
  else if String.eqb field "sub_category" then sel_sub_category ds
  else None.

(** [response.raise_for_status()] passes on 2xx. *)
Definition is_success (status : Z) : bool := ((200 <=? status) && (status <=? 299))%Z.

(** [l[:n]] *)
Definition slice_to (A : Type) (l : list A) (n : Z) : list A :=
  if (0 <=? n)%Z then firstn (Z.to_nat n) l
  else firstn (List.length l - Z.to_nat (- n)) l.

(** [time.sleep(delay)]: a negative delay is refused. *)
Definition time_sleep (delay : Z) : string + Event :=
  if (delay <? 0)%Z then inl "sleep length must be non-negative"
  else inr (Sleep delay).

(** ** The methods *)

Section Methods.

Variable interp : Interp.
Variable lib : Urllib.
Variable web : Web.

(** [_rate_limit]; it raises what [time.sleep] raises. *)
Definition _rate_limit (s : Scraper) : string + Scraper :=
  let delay := get_or (rate_limit (config s)) delay_between_pages 1000%Z in
  match time_sleep delay with
  | inl msg => inl msg
  | inr slept => inr (log slept s)
  end.

(** [_extract_text(soup, selector)], [extract_all=False]; [body] is the
    text the soup was made from. *)
Definition _extract_text (body selector : string) : option string :=
  match attr_match selector with
  | Some (css_selector, attr_name) =>
      match soup_select web body css_selector with
      | inl _ => None
      | inr [] => None
      | inr (elem :: _) =>
          match attr_stripped elem attr_name with
          | inl _ => None
          | inr v => Some v
          end
      end
  | None =>
      match soup_select web body selector with
      | inl _ => None
      | inr [] => None
      | inr (elem :: _) => Some (get_text_strip elem)
      end
  end.

(** [_extract_text(soup, selector, extract_all=True)] *)
Definition _extract_text_all (body selector : string) : list string :=
  match attr_match selector with
  | Some (css_selector, attr_name) =>
      match soup_select web body css_selector with
      | inl _ => []
      | inr elements =>
          match attr_values elements attr_name with
          | inl _ => []
          | inr vs => vs
          end
      end
  | None =>
      match soup_select web body selector with
      | inl _ => []
      | inr elements =>
          let texts := List.map get_text_strip elements in
          List.filter PyStr.truthy texts
      end
  end.

(** [_get_next_page_url]; it raises what [urlparse] raises. *)
Definition _get_next_page_url (cfg : Config) (current_url : string) (page_num : Z)
  : string + option string :=
  let max_pages := get_or (pagination cfg) max_pages 10%Z in
  if (page_num >? max_pages)%Z then inr None
  else
    let pag_type := get_or (pagination cfg) pag_type "url_param" in
    if String.eqb pag_type "url_param" then
      let param_name := get_or (pagination cfg) param_name "page" in
      match urlparse lib current_url with
      | inl err => inl err
      | inr parsed =>
          let query_params := parse_qs lib (query parsed) in
          let query_params := Dict.set query_params param_name [PyStr.of_Z page_num] in
          let new_query := urlencode lib query_params in
          inr (Some (urlunparse lib
                       {| scheme := scheme parsed; netloc := netloc parsed;
                          path := path parsed; params := params parsed;
                          query := new_query; fragment := fragment parsed |}))
      end
    else inr None.

(** [_generate_product_id]; it raises what [urlparse] raises. *)
Definition _generate_product_id (url : string) : string + string :=
  match urlparse lib url with
  | inl err => inl err
  | inr parsed =>
      let path_parts := List.filter PyStr.truthy (PyStr.split "/" (path parsed)) in
      match path_parts with
      | _ :: _ =>
          let product_id := List.last path_parts EmptyString in
          inr (PyStr.map
                 (fun c => if PyStr.re_word c || PyStr.cp 45 c then c else "_"%char)
                 product_id)
      | [] => inr (PyStr.of_Z (py_hash interp url))
      end
  end.

(** The loop over [soup.select(selector)] in [_scrape_product_links],
    element by element.  [urljoin] refuses a list, and raises on a
    reference it cannot split. *)
Fixpoint collect_links (url : string) (elements : list Element) : string + list string :=
  match elements with
  | [] => inr []
  | elem :: rest =>
      match Dict.get (attrs elem) "href" with
      | Some (AStr href) =>
          if PyStr.truthy href then
            match urljoin lib url href with
            | inl err => inl err
            | inr absolute_url =>
                match collect_links url rest with
                | inl err => inl err
                | inr links => inr (absolute_url :: links)
                end
            end
          else collect_links url rest
      | Some (AList (_ :: _)) => inl "Cannot mix str and non-str arguments"
      | Some (AList []) => collect_links url rest
      | None => collect_links url rest
      end
  end.

(** The [try] block of [_scrape_product_links]. *)
Definition listing_try (cfg : Config) (url : string) : string + list string :=
  match client_get web url with
  | NetworkError msg => inl msg
  | HttpResponse status body =>
      if is_success status then
        match product_links (selectors cfg) with
        | None => inl "'product_links'"
        | Some selector =>
            match soup_select web body selector with
            | inl msg => inl msg
            | inr elements => collect_links url elements
            end
        end
      else inl (status_error web url status)
  end.

(** [_scrape_product_links] *)
Definition _scrape_product_links (url : string) (s : Scraper) : list string * Scraper :=
  let s := log (GetListing url) s in
  match listing_try (config s) url with
  | inr links => (links, s)
  | inl msg => ([], errors_append url msg "listing" s)
  end.

(** The loop over the four scalar fields. *)
Definition extract_scalars (clean : bool) (body : string) (ds : DetailSelectors)
    (product : Product) : Product :=
  fold_left
    (fun product field =>
       match scalar_selector ds field with
       | Some selector =>
           let value := _extract_text body selector in
           let value := if clean then _clean_text value else value in
           Dict.set product field (of_option value)
       | None => product
       end)
    scalar_fields product.

(** The loop over [detail_selectors['attributes'].items()]. *)
Definition extract_attributes (body : string) (attr_selectors : Dict.t string)
  : Dict.t (option string) :=
  fold_left
    (fun attributes item =>
       let '(attr_name, attr_selector) := item in
       match _extract_text body attr_selector with
       | Some value =>
           if PyStr.truthy value
           then Dict.set attributes attr_name (_clean_text (Some value))
           else attributes
       | None => attributes
       end)
    attr_selectors [].

(** The body of [_scrape_product_detail] from [product = {...}] through
    the features; [id] is what [_generate_product_id] returned. *)
Definition extract_fields (cfg : Config) (id url body : string) (ds : DetailSelectors)
  : Product :=
  let opts := extraction cfg in
  let product : Product :=
    [("id", VStr id);
     ("product_url", VStr url);
     ("category", VStr (category cfg))] in
  let product := extract_scalars (get_or opts clean_text true) body ds product in
  let product :=
    match sel_price ds with
    | Some selector =>
        let price_text := _extract_text body selector in
        if get_or opts parse_price true
        then Dict.set product "price"
               match _parse_price price_text with
               | Some literal => VFloat literal
               | None => VNone
               end
        else Dict.set product "price" (of_option (_clean_text price_text))
    | None => product
    end in
  let product :=
    match sel_currency ds with
    | Some selector => Dict.set product "currency" (of_option (_extract_text body selector))
    | None => Dict.set product "currency" (VStr (get_or opts default_currency "INR"))
    end in
  let product :=
    match sel_attributes ds with
    | Some attr_selectors =>
        Dict.set product "attributes" (VDict (extract_attributes body attr_selectors))
    | None => product
    end in
  let product :=
    match sel_features ds with
    | Some selector =>
        let features := _extract_text_all body selector in
        Dict.set product "features"
          (VList match features with [] => [] | _ :: _ => features end)
    | None => product
    end in
  product.

(** The comprehension [[urljoin(url, img) for img in image_urls]]. *)
Fixpoint join_all (url : string) (image_urls : list string) : string + list string :=
  match image_urls with
  | [] => inr []
  | img :: rest =>
      match urljoin lib url img with
      | inl err => inl err
      | inr absolute_url =>
          match join_all url rest with
          | inl err => inl err
          | inr joined => inr (absolute_url :: joined)
          end
      end
  end.

(** [if 'image_url' in detail_selectors: ...] *)
Definition extract_image_url (url body : string) (ds : DetailSelectors) (product : Product)
  : string + Product :=
  match sel_image_url ds with
  | Some selector =>
      match _extract_text body selector with
      | Some image_url =>
          if PyStr.truthy image_url
          then match urljoin lib url image_url with
               | inl err => inl err
               | inr absolute_url => inr (Dict.set product "image_url" (VStr absolute_url))
               end
          else inr product
      | None => inr product
      end
  | None => inr product
  end.

(** [if extraction_opts.get('extract_all_images', False) and ...] *)
Definition extract_image_urls_all (cfg : Config) (url body : string) (ds : DetailSelectors)
    (product : Product) : string + Product :=
  if get_or (extraction cfg) extract_all_images false then
    match sel_image_urls_all ds with
    | Some selector =>
        let image_urls := _extract_text_all body selector in
        match image_urls with
        | [] => inr (Dict.set product "image_urls_all" (VList []))
        | _ :: _ =>
            match join_all url image_urls with
            | inl err => inl err
            | inr joined => inr (Dict.set product "image_urls_all" (VList joined))
            end
        end
    | None => inr product
    end
  else inr product.

(** The body of [_scrape_product_detail] from [product = {...}] to
    [return product]; it raises what [urlparse] and [urljoin] raise. *)
Definition extract_product (cfg : Config) (url body : string) (ds : DetailSelectors)
  : string + Product :=
  match _generate_product_id url with
  | inl err => inl err
  | inr id =>
      match extract_image_url url body ds (extract_fields cfg id url body ds) with
      | inl err => inl err
      | inr product => extract_image_urls_all cfg url body ds product
      end
  end.

(** The [try] block of [_scrape_product_detail] after [_rate_limit]. *)
Definition detail_try (cfg : Config) (url : string) : string + Product :=
  match client_get web url with
  | NetworkError msg => inl msg
  | HttpResponse status body =>
      if is_success status then
        match product_detail (selectors cfg) with
        | None => inl "'product_detail'"
        | Some ds => extract_product cfg url body ds
        end
      else inl (status_error web url status)
  end.

(** [_scrape_product_detail]; [_rate_limit] runs inside the [try]. *)
Definition _scrape_product_detail (url : string) (s : Scraper) : option Product * Scraper :=
  match _rate_limit s with
  | inl msg => (None, errors_append url msg "product" s)
  | inr s =>
      let s := log (GetProduct url) s in
      match detail_try (config s) url with
      | inr product => (Some product, s)
      | inl msg => (None, errors_append url msg "product" s)
      end
  end.

(** ** [scrape] *)

(** The [while] loop for one start URL.  [added] is everything passed to
    [all_product_urls.update] so far.  [_get_next_page_url] and
    [_rate_limit] are called outside any [try]: what they raise ends the
    loop, and [scrape] with it.  [None] only when [fuel] runs out. *)
Fixpoint listing_loop (fuel : nat) (limit : Z) (start_url : string) (page_num : Z)
    (current_url : option string) (added : list string) (s : Scraper)
  : option (Run (list string)) :=
  match current_url with
  | None => Some (Returned added s)
  | Some url =>
      if PyStr.truthy url
         && (Z.of_nat (List.length (set_order interp added)) <? limit)%Z
      then
        match fuel with
        | O => None
        | S fuel' =>
            let '(product_links, s) := _scrape_product_links url s in
            let added := added ++ product_links in
            let page_num := (page_num + 1)%Z in
            match _get_next_page_url (config s) start_url page_num with
            | inl msg => Some (Raised msg s)
            | inr current_url =>
                let slept :=
                  match current_url with
                  | Some next => if PyStr.truthy next then _rate_limit s else inr s
                  | None => inr s
                  end in
                match slept with
                | inl msg => Some (Raised msg s)
                | inr s => listing_loop fuel' limit start_url page_num current_url added s
                end
            end
        end
      else Some (Returned added s)
  end.

(** The [for start_url in self.config['start_urls']] loop. *)
Fixpoint listing_phase (fuel : nat) (limit : Z) (urls : list string)
    (added : list string) (s : Scraper) : option (Run (list string)) :=
  match urls with
  | [] => Some (Returned added s)
  | start_url :: rest =>
      match listing_loop fuel limit start_url 1 (Some start_url) added s with
      | Some (Returned added s) => listing_phase fuel limit rest added s
      | Some (Raised msg s) => Some (Raised msg s)
      | None => None
      end
  end.

(** The [for url in product_urls_to_scrape] loop, with its [break]. *)
Fixpoint detail_phase (urls : list string) (s : Scraper) : Scraper :=
  match urls with
  | [] => s
  | url :: rest =>
      match _scrape_product_detail url s with
      | (Some ((_ :: _) as product_data), s) =>
          detail_phase rest (products_append product_data s)
      | (_, s) =>
          if negb (get_or (error_handling (config s)) skip_on_error true)
          then s
          else detail_phase rest s
      end
  end.

(** [list(all_product_urls)[:limit]] *)
Definition product_urls_to_scrape (limit : Z) (added : list string) : list string :=
  slice_to (set_order interp added) limit.

Definition scrape_with (fuel : nat) (limit : Z) (s : Scraper) : option (Run (list Product)) :=
  match listing_phase fuel limit (start_urls (config s)) [] s with
  | Some (Returned added s) =>
      let s := detail_phase (product_urls_to_scrape limit added) s in
      Some (Returned (products s) s)
  | Some (Raised msg s) => Some (Raised msg s)
  | None => None
  end.

(** Iterations one start URL can need: the first page, then one for each
    page number from 2 to [max_pages]. *)
Definition page_budget (cfg : Config) : nat :=
  S (Z.to_nat (get_or (pagination cfg) max_pages 10%Z)).

(** [scrape(limit)]: it returns [self.products], or ends with the
    exception the listing loop raised. *)
Definition scrape (limit : Z) (s : Scraper) : option (Run (list Product)) :=
  scrape_with (page_budget (config s)) limit s.

End Methods.

(** [get_results] *)
Definition get_results (s : Scraper) : Results :=
  {| r_site_name := site_name (config s);
     r_category := category (config s);
     r_total_products := List.length (products s);
     r_total_errors := List.length (errors s);
     r_products := products s;
     r_errors :=
       if get_or (error_handling (config s)) log_errors true then errors s else [] |}.

(** ** Concrete environments

    Instances of the records above, to run the methods on concrete
    inputs. *)

(** [urllib.parse] on plain URLs: the splitting rules of [urlsplit] and
    [urlunsplit] with the bracket check of the host, without
    percent-escapes or dot segments. *)
Module Plain.

Local Open Scope string_scope.

(** [s.partition(c)] for a one-character class: the part before the
    first match, and the match with what follows it. *)
Fixpoint break (p : ascii -> bool) (s : string) : string * string :=
  match s with
  | EmptyString => (EmptyString, EmptyString)
  | String c s' =>
      if p c then (EmptyString, s)
      else let '(a, b) := break p s' in (String c a, b)
  end.

Definition tail (s : string) : string :=
  match s with
  | EmptyString => EmptyString
  | String _ s' => s'
  end.

Definition lower (c : ascii) : ascii :=
  if PyStr.between 65 90 c then ascii_of_N (PyStr.code c + 32) else c.

Definition scheme_char (c : ascii) : bool :=
  PyStr.ascii_alnum c || PyStr.cp 43 c || PyStr.cp 45 c || PyStr.cp 46 c.

Definition first_is_letter (s : string) : bool :=
  match s with
  | String c _ => PyStr.between 65 90 c || PyStr.between 97 122 c
  | EmptyString => false
  end.

Definition split_scheme (url : string) : string * string :=
  let '(before, rest) := break (PyStr.cp 58) url in
  if PyStr.truthy rest && first_is_letter before && PyStr.forallb scheme_char before
  then (PyStr.map lower before, tail rest)
  else (EmptyString, url).

Definition split_netloc (url : string) : string * string :=
  match PyStr.drop_prefix "//" url with
  | Some rest => break (fun c => PyStr.cp 47 c || PyStr.cp 63 c || PyStr.cp 35 c) rest
  | None => (EmptyString, url)
  end.

(** [_splitparams]: the first [;] after the last [/]. *)
Fixpoint split_params (url : string) : string * string :=
  match url with
  | EmptyString => (EmptyString, EmptyString)
  | String c s' =>
      if PyStr.cp 59 c && negb (existsb (PyStr.cp 47) (list_ascii_of_string s'))
      then (EmptyString, s')
      else let '(a, b) := split_params s' in (String c a, b)
  end.

Definition contains (c : N) (s : string) : bool :=
  negb (PyStr.forallb (fun x => negb (PyStr.cp c x)) s).

(** One of [[] and []] without the other. *)
Definition bad_brackets (netloc : string) : bool :=
  xorb (contains 91 netloc) (contains 93 netloc).

Definition urlparse (url : string) : string + ParseResult :=
  let '(scheme, url) := split_scheme url in
  let '(netloc, url) := split_netloc url in
  if bad_brackets netloc then inl "Invalid IPv6 URL"
  else
    let '(url, fragment) := break (PyStr.cp 35) url in
    let '(url, query) := break (PyStr.cp 63) url in
    let '(url, params) := split_params url in
    inr {| scheme := scheme; netloc := netloc; path := url; params := params;
           query := tail query; fragment := tail fragment |}.

Definition uses_netloc : list string :=
  [""; "ftp"; "http"; "https"; "file"; "ws"; "wss"; "sftp"].

Definition urlunparse (c : ParseResult) : string :=
  let url := if PyStr.truthy (params c) then path c ++ ";" ++ params c else path c in
  let url :=
    if PyStr.truthy (netloc c)
       || (PyStr.truthy (scheme c)
           && existsb (String.eqb (scheme c)) uses_netloc
           && negb (String.prefix "//" url))
    then "//" ++ netloc c
         ++ (if PyStr.truthy url && negb (String.prefix "/" url) then "/" ++ url else url)
    else url in
  let url := if PyStr.truthy (scheme c) then scheme c ++ ":" ++ url else url in
  let url := if PyStr.truthy (query c) then url ++ "?" ++ query c else url in
  if PyStr.truthy (fragment c) then url ++ "#" ++ fragment c else url.

(** One [name=value] pair; a blank value is dropped. *)
Definition add_pair (d : Dict.t (list string)) (pair : string) : Dict.t (list string) :=
  let '(name, value) := break (PyStr.cp 61) pair in
  let value := tail value in
  if PyStr.truthy value then
    match Dict.get d name with
    | Some vs => Dict.set d name (vs ++ [value])%list
    | None => Dict.set d name [value]
    end
  else d.

Definition parse_qs (qs : string) : Dict.t (list string) :=
  fold_left add_pair (PyStr.split "&" qs) [].

Definition urlencode (d : Dict.t (list string)) : string :=
  String.concat "&"
    (flat_map (fun '(k, vs) => List.map (fun v => k ++ "=" ++ v) vs) d).

(** The path up to and including its last [/]. *)
Definition directory (p : string) : string :=
  PyStr.rev (snd (break (PyStr.cp 47) (PyStr.rev p))).

(** [urljoin] for a reference that is an absolute URL, starts at the
    root, or is a plain relative path.  An empty argument gives the
    other one back; otherwise both are parsed, the base first. *)
Definition urljoin (base ref : string) : string + string :=
  if negb (PyStr.truthy base) then inr ref
  else if negb (PyStr.truthy ref) then inr base
  else
    match urlparse base with
    | inl err => inl err
    | inr b =>
        match urlparse ref with
        | inl err => inl err
        | inr r =>
            if PyStr.truthy (scheme r) then inr ref
            else
              inr (urlunparse
                     {| scheme := scheme b; netloc := netloc b;
                        path := if String.prefix "/" ref then ref
                                else directory (path b) ++ ref;
                        params := ""; query := ""; fragment := "" |})
        end
    end.

Definition lib : Urllib.
Proof.
  refine (Build_Urllib urlparse parse_qs urlencode urlunparse urljoin _).
  assert (Hset : forall (d : Dict.t (list string)) k v,
            NoDup (List.map fst d) -> NoDup (List.map fst (Dict.set d k v))).
  { assert (Hin : forall (d : Dict.t (list string)) k v x,
              In x (List.map fst (Dict.set d k v)) -> x = k \/ In x (List.map fst d)).
    { induction d as [|[k0 v0] d IH]; intros k v x; simpl.
      - intros [H|[]]. now left.
      - destruct (String.eqb_spec k0 k) as [->|Hk]; simpl; [tauto|].
        intros [H|H]; [tauto|]. apply IH in H. tauto. }
    induction d as [|[k0 v0] d IH]; intros k v H; simpl.
    - repeat constructor. intros [].
    - inversion H as [|? ? Hk0 Hd]; subst.
      destruct (String.eqb_spec k0 k) as [->|Hk]; simpl.
      + now constructor.
      + constructor; [|now apply IH].
        intros Hx. apply Hin in Hx. destruct Hx as [Hx|Hx]; [congruence|contradiction]. }
  assert (Hfold : forall pairs (d : Dict.t (list string)),
            NoDup (List.map fst d) -> NoDup (List.map fst (fold_left add_pair pairs d))).
  { induction pairs as [|pair pairs IH]; intros d H; simpl; [exact H|].
    apply IH. unfold add_pair. destruct (break (PyStr.cp 61) pair) as [name value].
    destruct (PyStr.truthy (tail value)); [|exact H].
    destruct (Dict.get d name); now apply Hset. }
  intros qs. apply Hfold. constructor.
Defined.

End Plain.

(** *** Two lawful iteration orders *)

(** Each element once, in the order of first insertion. *)
Fixpoint first_seen (added : list string) : list string :=
  match added with
  | [] => []
  | x :: rest => x :: List.filter (fun y => negb (String.eqb x y)) (first_seen rest)
  end.

(** A set that iterates in insertion order. *)
Definition insertion_order : SetOrder.
Proof.
  refine {| iter_order := first_seen |}.
  - induction added as [|a rest IH]; simpl; constructor.
    + rewrite filter_In, String.eqb_refl. intros [_ H]. discriminate.
    + now apply NoDup_filter.
  - induction added as [|a rest IH]; intros x; simpl; [tauto|].
    rewrite filter_In, IH, negb_true_iff, String.eqb_neq.
    destruct (string_dec a x); intuition congruence.
Defined.

(** A set that iterates the other way round.  An interpreter walks the
    slots of a hash table, so which of two strings comes first depends
    on their hashes and not on which was added first. *)
Definition newest_first : SetOrder :=
  {| iter_order := fun added => List.rev (first_seen added);
     iter_nodup := fun added => NoDup_rev (iter_nodup insertion_order added);
     iter_elems := fun added x =>
       iff_trans (iff_sym (in_rev (first_seen added) x))
                 (iter_elems insertion_order added x) |}.

(** Two interpreter processes; their hash salts differ. *)
Definition python_a : Interp :=
  {| py_hash := fun s => Z.of_nat (String.length s); set_order := insertion_order |}.


Definition python_b : Interp :=
  {| py_hash := fun s => (- Z.of_nat (String.length s) - 1)%Z; set_order := newest_first |}.

(** *** A small shop *)

Module Shop.

Local Open Scope string_scope.

Definition listing : string := "https://shop.example/watches".
Definition titan_one : string := "https://shop.example/p/titan-one".
Definition titan_two : string := "https://shop.example/p/titan-two".
Definition titan_three : string := "https://shop.example/p/titan-three".

Definition anchor (href : string) : Element :=
  {| attrs := [("class", AList ["product"]); ("href", AStr href)];
     get_text_strip := "view" |}.

Definition text_node (t : string) : Element :=
  {| attrs := []; get_text_strip := t |}.

Definition image (src alt : string) : Element :=
  {| attrs := [("src", AStr src); ("alt", AStr alt)]; get_text_strip := "" |}.

(** The documents, by the text that stands for them. *)
Definition select (body css : string) : string + list Element :=
  if String.eqb css "a[" then inl "Malformed attribute selector"
  else if String.eqb body "page-1" && String.eqb css "a.product"
  then inr [anchor "/p/titan-one"; anchor "/p/titan-two"]
  else if String.eqb body "page-2" && String.eqb css "a.product"
  then inr [anchor "/p/titan-two"; anchor "/p/titan-three"]
  else if String.eqb css "h1.title" then inr [text_node ("Titan  " ++ body)]
  else if String.eqb css "span.price" then inr [text_node "INR 8,999.00"]
  else if String.eqb css "ul.features li"
  then inr [text_node "Sapphire glass"; text_node ""; text_node "Water resistant"]
  else if String.eqb css "img.gallery"
  then inr [image "/img/front.jpg" "front"; image " " "blank"; image "" "none"]
  else inr [].

(** The site; [down] tells which URLs cannot be reached. *)
Definition get (down : string -> bool) (url : string) : Response :=
  if down url then NetworkError "connection refused"
  else if String.eqb url listing then HttpResponse 200 "page-1"
  else if String.eqb url (listing ++ "?page=2") then HttpResponse 200 "page-2"
  else if String.eqb url titan_one then HttpResponse 200 "One"
  else if String.eqb url titan_two then HttpResponse 200 "Two"
  else if String.eqb url titan_three then HttpResponse 200 "Three"
  else HttpResponse 404 "".

Definition web (down : string -> bool) : Web :=
  {| client_get := get down;
     status_error := fun url code => "Client error '" ++ PyStr.of_Z code ++ "' for url '" ++ url ++ "'";
     soup_select := select |}.

Definition nothing_down (url : string) : bool := false.
Definition all_down (url : string) : bool := true.
Definition one_down (url : string) : bool := String.eqb url titan_one.

Definition detail : DetailSelectors :=
  {| sel_name := Some "h1.title";
     sel_description := None;
     sel_brand := None;
     sel_sub_category := None;
     sel_price := Some "span.price";
     sel_currency := Some "span.currency";
     sel_attributes := None;
     sel_features := None;
     sel_image_url := None;
     sel_image_urls_all := None |}.

Definition detail_with_features (selector : string) : DetailSelectors :=
  {| sel_name := Some "h1.title";
     sel_description := None;
     sel_brand := None;
     sel_sub_category := None;
     sel_price := None;
     sel_currency := None;
     sel_attributes := None;
     sel_features := Some selector;
     sel_image_url := None;
     sel_image_urls_all := None |}.

Definition file (pages : Z) (ds : DetailSelectors) (skip log_them : bool) : ConfigFile :=
  {| f_site_name := Some "Shop";
     f_category := Some "watches";
     f_start_urls := Some [listing];
     f_selectors := Some {| product_links := Some "a.product"; product_detail := Some ds |};
     f_pagination :=
       Some {| max_pages := Some pages; pag_type := Some "url_param"; param_name := None |};
     f_rate_limit := Some {| delay_between_pages := Some 500%Z |};
     f_extraction :=
       Some {| clean_text := None; parse_price := None;
               default_currency := Some "EUR"; extract_all_images := None |};
     f_error_handling :=
       Some {| skip_on_error := Some skip; log_errors := Some log_them |} |}.

Definition cfg (pages : Z) (ds : DetailSelectors) (skip log_them : bool) : Config :=
  {| site_name := "Shop";
     category := "watches";
     start_urls := [listing];
     selectors := {| product_links := Some "a.product"; product_detail := Some ds |};
     pagination :=
       Some {| max_pages := Some pages; pag_type := Some "url_param"; param_name := None |};
     rate_limit := Some {| delay_between_pages := Some 500%Z |};
     extraction :=
       Some {| clean_text := None; parse_price := None;
               default_currency := Some "EUR"; extract_all_images := None |};
     error_handling :=
       Some {| skip_on_error := Some skip; log_errors := Some log_them |} |}.

(** The scraper right after construction. *)
Definition fresh (c : Config) : Scraper :=
  {| config := c; products := []; errors := []; client_log := [] |}.

End Shop.

(** ** Reading the client log *)

(** The detail pages requested, in order. *)
Fixpoint product_gets (l : list Event) : list string :=
  match l with
  | [] => []
  | GetProduct url :: rest => url :: product_gets rest
  | _ :: rest => product_gets rest
  end.

(** The listing pages requested, in order. *)
Fixpoint listing_gets (l : list Event) : list string :=
  match l with
  | [] => []
  | GetListing url :: rest => url :: listing_gets rest
  | _ :: rest => listing_gets rest
  end.

(** The product id as the specification words it: every character of
    the segment outside [[A-Za-z0-9_-]] becomes an underscore. *)
Definition sanitize_ascii (segment : string) : string :=
  PyStr.map (fun c => if PyStr.ascii_id_char c then c else "_"%char) segment.

(** The replacement [re.sub(r'[^\w-]', '_', _)] makes. *)
Definition sanitize_word (segment : string) : string :=
  PyStr.map (fun c => if PyStr.re_word c || PyStr.cp 45 c then c else "_"%char) segment.

(** The non-empty segments of a path. *)
Definition path_parts (p : string) : list string :=
  List.filter PyStr.truthy (PyStr.split "/" p).

(** ** Vocabulary of the statements *)

Definition one_error_unlogged : Scraper :=
  {| config := Shop.cfg 1 Shop.detail true false;
     products := [];
     errors := [{| err_url := Shop.titan_one; err_error := "connection refused";
                   err_type := "product" |}];
     client_log := [] |}.

Definition next_link_cfg : Config :=
  {| site_name := "Shop"; category := "watches"; start_urls := [Shop.listing];
     selectors := {| product_links := None; product_detail := None |};
     pagination := Some {| max_pages := None; pag_type := Some "next_link";
                           param_name := None |};
     rate_limit := None; extraction := None; error_handling := None |}.

Definition cafe : string := "caf" ++ String "233" "".

(** A start URL whose bracketed host is not closed. *)
Definition open_bracket : string := "http://[::1".

(** A configuration whose start URL [urlparse] rejects; pagination is
    left to its defaults. *)
Definition open_bracket_cfg : Config :=
  {| site_name := "Shop"; category := "watches"; start_urls := [open_bracket];
     selectors := {| product_links := Some "a.product";
                     product_detail := Some Shop.detail |};
     pagination := None; rate_limit := None; extraction := None;
     error_handling := None |}.

(** A configuration with a negative delay. *)
Definition negative_delay_cfg : Config :=
  {| site_name := "Shop"; category := "watches"; start_urls := [Shop.listing];
     selectors := {| product_links := Some "a.product";
                     product_detail := Some Shop.detail |};
     pagination := None;
     rate_limit := Some {| delay_between_pages := Some (-1)%Z |};
     extraction := None; error_handling := None |}.

(** The required key [field] is missing from the file. *)
Definition lacks (f : ConfigFile) (field : string) : Prop :=
  (field = "site_name" /\ f_site_name f = None) \/
  (field = "category" /\ f_category f = None) \/
  (field = "start_urls" /\ f_start_urls f = None) \/
  (field = "selectors" /\ f_selectors f = None).


(** The record [product] is [base] after the two image steps: each of
    them leaves the record or assigns its own key. *)
Definition with_images (base product : Product) : Prop :=
  exists p1,
    (p1 = base \/ exists v, p1 = Dict.set base "image_url" v) /\
    (product = p1 \/ exists v, product = Dict.set p1 "image_urls_all" v).

(** The prefix of [urls] that ends with the first failing one. *)
Fixpoint up_to_first_failure (fails : string -> bool) (urls : list string) : list string :=
  match urls with
  | [] => []
  | url :: rest => url :: if fails url then [] else up_to_first_failure fails rest
  end.

(** [t] continued from the accumulators and the log of [s0]. *)
Definition onto (s0 t : Scraper) : Scraper :=
  {| config := config t;
     products := products s0 ++ products t;
     errors := errors s0 ++ errors t;
     client_log := client_log s0 ++ client_log t |}.

Definition with_rest (s0 : Scraper) (r : list string * Scraper) : list string * Scraper :=
  (fst r, onto s0 (snd r)).

(** The same for the end of a call. *)
Definition run_onto (A : Type) (s0 : Scraper) (r : Run A) : Run A :=
  match r with
  | Returned v t => Returned v (onto s0 t)
  | Raised msg t => Raised msg (onto s0 t)
  end.

(** The same for a call that returns the products. *)
Definition products_onto (s0 : Scraper) (r : Run (list Product)) : Run (list Product) :=
  match r with
  | Returned ps t => Returned (products s0 ++ ps) (onto s0 t)
  | Raised msg t => Raised msg (onto s0 t)
  end.


(** The delay [_rate_limit] sleeps for. *)
Definition delay_of (cfg : Config) : Z := get_or (rate_limit cfg) delay_between_pages 1000%Z.

(** The detail pages requested when [urls] are attempted: with a
    negative delay [time.sleep] fails each attempt before its request. *)
Definition requested (cfg : Config) (urls : list string) : list string :=
  if (delay_of cfg <? 0)%Z then [] else urls.

Section Vocabulary.

Variable interp : Interp.
Variable lib : Urllib.
Variable web : Web.

(** One turn of the [while] loop, for a page that passed the guard. *)
Definition after_page (start_url : string) (page_num : Z) (url : string) (s : Scraper)
  : Run (option string) :=
  let s1 := snd (_scrape_product_links lib web url s) in
  match _get_next_page_url lib (config s) start_url (page_num + 1) with
  | inl msg => Raised msg s1
  | inr next =>
      match next with
      | Some n =>
          if PyStr.truthy n
          then match _rate_limit s1 with
               | inl msg => Raised msg s1
               | inr s2 => Returned next s2
               end
          else Returned next s1
      | None => Returned next s1
      end
  end.

(** Enough fuel for a loop that stands at [page_num] with a page to
    fetch: one turn for it and one for each later page number. *)
Definition enough (fuel : nat) (cfg : Config) (page_num : Z) (current_url : option string)
  : Prop :=
  forall url, current_url = Some url ->
    (Z.to_nat (get_or (pagination cfg) max_pages 10%Z - page_num) + 1 <= fuel)%nat.

(** What the [try] block of [_scrape_product_detail] ends in. *)
Definition detail_result (cfg : Config) (url : string) : string + Product :=
  match time_sleep (delay_of cfg) with
  | inl msg => inl msg
  | inr _ => detail_try interp lib web cfg url
  end.

Definition detail_fails (cfg : Config) (url : string) : bool :=
  match detail_result cfg url with
  | inl _ => true
  | inr _ => false
  end.

(** The URLs the loop gets to. *)
Definition tried (cfg : Config) (urls : list string) : list string :=
  if get_or (error_handling cfg) skip_on_error true then urls
  else up_to_first_failure (detail_fails cfg) urls.

Definition detail_errors (cfg : Config) (urls : list string) : list ErrorRecord :=
  flat_map
    (fun url =>
       match detail_result cfg url with
       | inl msg => [{| err_url := url; err_error := msg; err_type := "product" |}]
       | inr _ => []
       end)
    urls.

Definition detail_products (cfg : Config) (urls : list string) : list Product :=
  flat_map
    (fun url =>
       match detail_result cfg url with
       | inl _ => []
       | inr product => [product]
       end)
    urls.

Definition detail_log (cfg : Config) (urls : list string) : list Event :=
  flat_map
    (fun url =>
       match time_sleep (delay_of cfg) with
       | inl _ => []
       | inr slept => [slept; GetProduct url]
       end)
    urls.

Definition detail_outcome (cfg : Config) (urls : list string) : Scraper :=
  {| config := cfg;
     products := detail_products cfg urls;
     errors := detail_errors cfg urls;
     client_log := detail_log cfg urls |}.

End Vocabulary.

(** ** Vocabulary of the further properties *)

(** Every space of [s] is a blank that follows no other space; with
    [after_space] the text may not start with one. *)
Fixpoint single_blanks (after_space : bool) (s : string) : bool :=
  match s with
  | EmptyString => true
  | String c s' =>
      if PyStr.isspace c
      then PyStr.cp 32 c && negb after_space && single_blanks true s'
      else single_blanks false s'
  end.

(** As [single_blanks], and the text does not end with a space (so it is
    not empty when [after_space] holds). *)
Fixpoint spaced (after_space : bool) (s : string) : bool :=
  match s with
  | EmptyString => negb after_space
  | String c s' =>
      if PyStr.isspace c
      then PyStr.cp 32 c && negb after_space && spaced true s'
      else spaced false s'
  end.

(** A text in the form [_clean_text] produces: not empty, no space at
    either end, words separated by one blank each. *)
Definition cleaned (s : string) : bool := spaced true s.

(** The characters of [s] that are not spaces. *)
Definition ink (s : string) : string :=
  PyStr.filter (fun c => negb (PyStr.isspace c)) s.

(** The digits and points of [s]. *)
Definition digits_and_points (s : string) : string :=
  PyStr.filter (fun c => PyStr.re_digit c || PyStr.cp 46 c) s.

Definition word_or_hyphen (c : ascii) : bool := PyStr.re_word c || PyStr.cp 45 c.

Definition free_of (c : ascii) (s : string) : bool :=
  PyStr.forallb (fun x => negb (Ascii.eqb x c)) s.

(** No newline in [s]. *)
Definition one_line (s : string) : bool :=
  PyStr.forallb (fun c => negb (newline c)) s.

(** An attribute name without newline, colon or closing parenthesis. *)
Definition plain_attr_name (s : string) : bool :=
  PyStr.forallb (fun c => negb (newline c || PyStr.cp 41 c || PyStr.cp 58 c)) s.

(** The keys of a dictionary, in order. *)
Definition keys (V : Type) (d : Dict.t V) : list string := List.map fst d.

(** The keys a product record can hold. *)
Definition product_fields : list string :=
  ["id"; "product_url"; "category"; "name"; "description"; "brand"; "sub_category";
   "price"; "currency"; "attributes"; "features"; "image_url"; "image_urls_all"].

(** The three entries every product record starts with. *)
Definition identity_entries (id url cat : string) : Product :=
  [("id", VStr id); ("product_url", VStr url); ("category", VStr cat)].

(** What holds of a product record all along its construction. *)
Definition well_formed (id url cat : string) (d : Product) : Prop :=
  (exists rest, d = identity_entries id url cat ++ rest) /\
  NoDup (keys d) /\
  incl (keys d) product_fields.

(** The non-empty [href] attributes of the elements, in order. *)
Definition hrefs (elements : list Element) : list string :=
  flat_map
    (fun elem =>
       match Dict.get (attrs elem) "href" with
       | Some (AStr href) => if PyStr.truthy href then [href] else []
       | _ => []
       end)
    elements.

(** The [href] of the element, if any, is a string. *)
Definition href_is_text (elem : Element) : Prop :=
  match Dict.get (attrs elem) "href" with
  | Some (AList (_ :: _)) => False
  | _ => True
  end.

(** A value that is none or a cleaned text. *)
Definition none_or_cleaned (v : option string) : Prop :=
  match v with
  | None => True
  | Some r => cleaned r = true
  end.

(** Every [GetProduct] of the log comes right after a [Sleep] of [ms];
    [armed] tells that the event before the log was such a sleep. *)
Fixpoint well_paced (ms : Z) (armed : bool) (l : list Event) : bool :=
  match l with
  | [] => true
  | Sleep d :: rest => well_paced ms (Z.eqb d ms) rest
  | GetProduct _ :: rest => armed && well_paced ms false rest
  | GetListing _ :: rest => well_paced ms false rest
  end.

(** * Properties *)

(** ** Dictionaries *)

Lemma dict_get_set_same (V : Type) (d : Dict.t V) (k : string) (v : V) :
  Dict.get (Dict.set d k v) k = Some v.
Proof.
  induction d as [|[k' v'] d IH]; simpl.
  - now rewrite String.eqb_refl.
  - destruct (String.eqb k' k) eqn:E; simpl.
    + now rewrite String.eqb_refl.
    + now rewrite E.
Qed.

Lemma dict_get_set_other (V : Type) (d : Dict.t V) (k k' : string) (v : V) :
  k <> k' -> Dict.get (Dict.set d k v) k' = Dict.get d k'.
Proof.
  intros Hk. induction d as [|[k0 v0] d IH]; simpl.
  - apply String.eqb_neq in Hk. now rewrite Hk.
  - destruct (String.eqb k0 k) eqn:E; simpl.
    + apply String.eqb_eq in E. subst k0.
      apply String.eqb_neq in Hk. now rewrite Hk.
    + now rewrite IH.
Qed.

Lemma dict_set_keys (V : Type) (d : Dict.t V) (k : string) (v : V) :
  keys (Dict.set d k v) = if Dict.mem d k then keys d else keys d ++ [k].
Proof.
  unfold Dict.mem, keys. induction d as [|[k0 v0] d IH]; simpl; [reflexivity|].
  destruct (String.eqb_spec k0 k) as [->|Hk]; simpl; [reflexivity|].
  rewrite IH. destruct (Dict.get d k); reflexivity.
Qed.

Lemma dict_mem_keys (V : Type) (d : Dict.t V) (k : string) :
  Dict.mem d k = true <-> In k (keys d).
Proof.
  unfold Dict.mem, keys. induction d as [|[k0 v0] d IH]; simpl.
  - split; [discriminate|tauto].
  - destruct (String.eqb_spec k0 k) as [->|Hk]; [tauto|].
    rewrite IH. tauto.
Qed.

Lemma dict_set_NoDup (V : Type) (d : Dict.t V) (k : string) (v : V) :
  NoDup (keys d) -> NoDup (keys (Dict.set d k v)).
Proof.
  intros H. rewrite dict_set_keys. destruct (Dict.mem d k) eqn:Hm; [exact H|].
  apply NoDup_app; [exact H|repeat constructor; auto|].
  intros x Hx [<-|[]]. apply dict_mem_keys in Hx. congruence.
Qed.

Lemma dict_set_after (V : Type) (a b : Dict.t V) (k : string) (v : V) :
  ~ In k (keys a) -> Dict.set (a ++ b) k v = a ++ Dict.set b k v.
Proof.
  unfold keys. induction a as [|[k0 v0] a IH]; simpl; intros H; [reflexivity|].
  destruct (String.eqb_spec k0 k) as [->|Hk]; [tauto|].
  rewrite IH by tauto. reflexivity.
Qed.

(** After [d[k] = v] the key [k] is in [d] once. *)
Lemma dict_set_once (V : Type) (d : Dict.t V) (k : string) (v : V) :
  NoDup (keys d) -> count_occ string_dec (keys (Dict.set d k v)) k = 1%nat.
Proof.
  intros H. apply dict_set_NoDup with (k := k) (v := v) in H.
  assert (Hin : In k (keys (Dict.set d k v))).
  { apply dict_mem_keys. unfold Dict.mem. now rewrite dict_get_set_same. }
  pose proof (proj1 (NoDup_count_occ string_dec _) H k) as Hle.
  apply (count_occ_In string_dec) in Hin. lia.
Qed.

(** ** Construction (C7) *)

(** C7, amended. Construction fails exactly when one of [site_name],
    [category], [start_urls], [selectors] is missing, and the message
    then names a required field that is missing; nothing is produced in
    that case.  A configuration with the four keys is accepted whatever
    [start_urls] holds, the empty list included, and the scraper it
    yields has empty accumulators and has made no request. *)
Theorem construction_fails_iff_key_missing (f : ConfigFile) :
  ((f_site_name f = None \/ f_category f = None \/
    f_start_urls f = None \/ f_selectors f = None)
   <-> exists field,
         In field ["site_name"; "category"; "start_urls"; "selectors"] /\
         lacks f field /\
         ProductScraper f = inl (missing_field field))
  /\ (forall sn cat urls sels,
        f_site_name f = Some sn -> f_category f = Some cat ->
        f_start_urls f = Some urls -> f_selectors f = Some sels ->
        exists s, ProductScraper f = inr s /\
                  start_urls (config s) = urls /\
                  products s = [] /\ errors s = [] /\ client_log s = []).
Proof.
  unfold ProductScraper, _load_config, lacks. split; [split|].
  - intros H.
    destruct (f_site_name f); [|exists "site_name"; simpl; auto].
    destruct (f_category f); [|exists "category"; simpl; auto 7].
    destruct (f_start_urls f); [|exists "start_urls"; simpl; auto 8].
    destruct (f_selectors f); [|exists "selectors"; simpl; auto 9].
    destruct H as [H|[H|[H|H]]]; discriminate.
  - intros (field & _ & _ & H).
    destruct (f_site_name f); auto.
    destruct (f_category f); auto.
    destruct (f_start_urls f); auto.
    destruct (f_selectors f); auto.
    discriminate.
  - intros sn cat urls sels -> -> -> ->. eexists. repeat split.
Qed.

(** The claim as written fails: an empty [start_urls] is accepted. *)
Lemma empty_start_urls_is_accepted :
  let f := {| f_site_name := Some "Shop"; f_category := Some "watches";
              f_start_urls := Some [];
              f_selectors := Some {| product_links := None; product_detail := None |};
              f_pagination := None; f_rate_limit := None; f_extraction := None;
              f_error_handling := None |} in
  f_start_urls f = Some [] /\
  exists s, ProductScraper f = inr s /\ start_urls (config s) = [].
Proof.
  simpl. split; [reflexivity|]. eexists. split; reflexivity.
Qed.

Lemma construction_fails_iff_key_missing_witness :
  let f := {| f_site_name := Some "Shop"; f_category := None;
              f_start_urls := Some [Shop.listing]; f_selectors := None;
              f_pagination := None; f_rate_limit := None; f_extraction := None;
              f_error_handling := None |} in
  (exists field,
     In field ["site_name"; "category"; "start_urls"; "selectors"] /\
     lacks f field /\
     ProductScraper f = inl (missing_field field))
  /\ exists s, ProductScraper (Shop.file 1 Shop.detail true true) = inr s /\
               start_urls (config s) = [Shop.listing] /\
               products s = [] /\ errors s = [] /\ client_log s = [].
Proof.
  intros f. split.
  - apply (proj1 (construction_fails_iff_key_missing f)). right. left. reflexivity.
  - apply (proj2 (construction_fails_iff_key_missing (Shop.file 1 Shop.detail true true))
             "Shop" "watches" [Shop.listing]
             {| product_links := Some "a.product"; product_detail := Some Shop.detail |});
      reflexivity.
Defined.

(** ** The result document (C9) *)

(** C9, amended. [total_products] is the length of the products array
    and [total_errors] the number of errors recorded.  With [log_errors]
    true (the default) the errors array is the recorded list, so
    [total_errors] is its length; with [log_errors] false the array is
    empty while [total_errors] still counts every recorded error. *)
Theorem get_results_counts (s : Scraper) :
  let r := get_results s in
  r_total_products r = List.length (r_products r) /\
  r_total_errors r = List.length (errors s) /\
  (get_or (error_handling (config s)) log_errors true = true ->
     r_errors r = errors s /\ r_total_errors r = List.length (r_errors r)) /\
  (get_or (error_handling (config s)) log_errors true = false ->
     r_errors r = []).
Proof.
  unfold get_results; simpl.
  split; [reflexivity|]. split; [reflexivity|].
  split; intros H; rewrite H; auto.
Qed.

(** The claim as written fails: with [log_errors] false and one error
    recorded, [total_errors] is 1 and the errors array has length 0. *)
Lemma total_errors_differs_from_array_length :
  let r := get_results one_error_unlogged in
  r_total_errors r = 1 /\ List.length (r_errors r) = 0 /\
  r_total_errors r <> List.length (r_errors r).
Proof.
  simpl. repeat split. discriminate.
Qed.

Lemma get_results_counts_witness :
  r_errors (get_results one_error_unlogged) = [] /\
  r_total_errors (get_results one_error_unlogged) = 1 /\
  r_total_errors (get_results (Shop.fresh (Shop.cfg 1 Shop.detail true true)))
  = List.length (r_errors (get_results (Shop.fresh (Shop.cfg 1 Shop.detail true true)))).
Proof.
  split; [|split].
  - apply (get_results_counts one_error_unlogged). reflexivity.
  - apply (get_results_counts one_error_unlogged).
  - apply (get_results_counts (Shop.fresh (Shop.cfg 1 Shop.detail true true))). reflexivity.
Defined.

(** ** Pagination (C8) *)

Section Pagination.

Variable lib : Urllib.
Variable cfg : Config.

Let limit : Z := get_or (pagination cfg) max_pages 10%Z.
Let kind : string := get_or (pagination cfg) pag_type "url_param".
Let name : string := get_or (pagination cfg) param_name "page".

Lemma next_page_past_the_end (start_url : string) (page_number : Z) :
  (page_number > limit)%Z -> _get_next_page_url lib cfg start_url page_number = inr None.
Proof.
  intros H. unfold _get_next_page_url. fold limit.
  destruct (Z.gtb_spec page_number limit); [reflexivity|lia].
Qed.

Lemma next_page_within (start_url : string) (page_number : Z) :
  (page_number <= limit)%Z ->
  _get_next_page_url lib cfg start_url page_number =
  if String.eqb kind "url_param" then
    match urlparse lib start_url with
    | inl err => inl err
    | inr parsed =>
        inr (Some (urlunparse lib
                     {| scheme := scheme parsed; netloc := netloc parsed;
                        path := path parsed; params := params parsed;
                        query := urlencode lib
                                   (Dict.set (parse_qs lib (query parsed)) name
                                             [PyStr.of_Z page_number]);
                        fragment := fragment parsed |}))
    end
  else inr None.
Proof.
  intros H. unfold _get_next_page_url. fold limit kind name.
  destruct (Z.gtb_spec page_number limit); [lia|reflexivity].
Qed.

(** The paginator gives a URL only for a page number within
    [max_pages]. *)
Lemma next_page_some_within (start_url : string) (page_num : Z) (n : string) :
  _get_next_page_url lib cfg start_url page_num = inr (Some n) ->
  (page_num <= limit)%Z.
Proof.
  intros H. destruct (Z_le_gt_dec page_num limit) as [Hle|Hgt]; [exact Hle|].
  rewrite next_page_past_the_end in H by assumption. discriminate.
Qed.




(** C8, amended. With pagination type [url_param] (also when the type
    is left to its default), the result is none exactly when
    [page_number] exceeds [max_pages] (10 when not configured), and
    then nothing is parsed.  Otherwise [start_url] is parsed: when
    [urlparse] accepts it, the result is [urlunparse] of the scheme,
    host, path, params and fragment parsed from it together with the
    re-encoding of the parsed query dictionary after the assignment
    [query_params[param_name] = [str(page_number)]]; in that dictionary
    [param_name] occurs once and holds [str(page_number)] alone, at the
    place of the prior value if there was one and last otherwise, and
    every other parameter is as parsed; when [urlparse] raises on
    [start_url], the call raises the same exception.  With any other
    type the result is none.  The result is a function of the
    configuration, the start URL and the page number only. *)
Theorem next_page_url_spec (start_url : string) (page_number : Z) :
  (kind = "url_param" ->
     (_get_next_page_url lib cfg start_url page_number = inr None
      <-> (page_number > limit)%Z) /\
     ((page_number <= limit)%Z ->
        (forall parsed, urlparse lib start_url = inr parsed ->
           let parsed_query := parse_qs lib (query parsed) in
           let q := Dict.set parsed_query name [PyStr.of_Z page_number] in
           _get_next_page_url lib cfg start_url page_number =
           inr (Some (urlunparse lib
                        {| scheme := scheme parsed; netloc := netloc parsed;
                           path := path parsed; params := params parsed;
                           query := urlencode lib q; fragment := fragment parsed |})) /\
           Dict.get q name = Some [PyStr.of_Z page_number] /\
           count_occ string_dec (keys q) name = 1%nat /\
           keys q = (if Dict.mem parsed_query name then keys parsed_query
                     else keys parsed_query ++ [name]) /\
           forall k, k <> name -> Dict.get q k = Dict.get parsed_query k) /\
        (forall msg, urlparse lib start_url = inl msg ->
           _get_next_page_url lib cfg start_url page_number = inl msg)))
  /\ (kind <> "url_param" ->
        _get_next_page_url lib cfg start_url page_number = inr None).
Proof.
  split.
  - intros Hkind. split; [split|].
    + intros Hnone. destruct (Z_le_gt_dec page_number limit) as [Hle|Hgt]; [|exact Hgt].
      rewrite (next_page_within _ Hle), Hkind in Hnone. simpl in Hnone.
      destruct (urlparse lib start_url); discriminate.
    + apply next_page_past_the_end.
    + intros Hle. rewrite (next_page_within _ Hle), Hkind, String.eqb_refl. split.
      * intros parsed -> parsed_query q. split; [reflexivity|]. split.
        -- apply dict_get_set_same.
        -- split; [apply dict_set_once, parse_qs_keys|]. split.
           ++ apply dict_set_keys.
           ++ intros k Hk. apply dict_get_set_other. congruence.
      * intros msg ->. reflexivity.
  - intros Hkind. destruct (Z_le_gt_dec page_number limit) as [Hle|Hgt].
    + rewrite (next_page_within _ Hle).
      apply String.eqb_neq in Hkind. now rewrite Hkind.
    + now apply next_page_past_the_end.
Qed.

End Pagination.

(** The claim as written fails: on a start URL that [urlparse] rejects
    the paginator returns nothing for a page within [max_pages]; the
    [ValueError] of [urlparse] leaves it. *)
Lemma unparsable_start_url_raises :
  let cfg := Shop.cfg 3 Shop.detail true true in
  get_or (pagination cfg) pag_type "url_param" = "url_param" /\
  (2 <= get_or (pagination cfg) max_pages 10)%Z /\
  urlparse Plain.lib open_bracket = inl "Invalid IPv6 URL" /\
  _get_next_page_url Plain.lib cfg open_bracket 2 = inl "Invalid IPv6 URL" /\
  forall result, _get_next_page_url Plain.lib cfg open_bracket 2 <> inr result.
Proof.
  simpl. split; [reflexivity|]. split; [lia|]. split; [reflexivity|].
  split; [reflexivity|]. intros result. discriminate.
Qed.

Lemma next_page_url_spec_witness :
  let start_url := "https://shop.example/watches?page=9&q=titan#top" in
  (_get_next_page_url Plain.lib (Shop.cfg 3 Shop.detail true true) start_url 4 = inr None
   <-> (4 > 3)%Z)
  /\ (let q := Dict.set (Plain.parse_qs "page=9&q=titan") "page" ["2"] in
      _get_next_page_url Plain.lib (Shop.cfg 3 Shop.detail true true) start_url 2 =
      inr (Some (Plain.urlunparse
                   {| scheme := "https"; netloc := "shop.example"; path := "/watches";
                      params := ""; query := Plain.urlencode q; fragment := "top" |})) /\
      Dict.get q "page" = Some ["2"] /\
      count_occ string_dec (keys q) "page" = 1%nat /\
      keys q = ["page"; "q"] /\
      forall k, k <> "page" -> Dict.get q k = Dict.get (Plain.parse_qs "page=9&q=titan") k)
  /\ _get_next_page_url Plain.lib (Shop.cfg 3 Shop.detail true true) open_bracket 2
     = inl "Invalid IPv6 URL"
  /\ _get_next_page_url Plain.lib next_link_cfg Shop.listing 2 = inr None.
Proof.
  intros start_url. split; [|split; [|split]].
  - apply (next_page_url_spec Plain.lib (Shop.cfg 3 Shop.detail true true) start_url 4).
    reflexivity.
  - apply (proj1 (proj2 (proj1 (next_page_url_spec Plain.lib (Shop.cfg 3 Shop.detail true true)
                                  start_url 2) eq_refl) ltac:(simpl; lia))
             {| scheme := "https"; netloc := "shop.example"; path := "/watches";
                params := ""; query := "page=9&q=titan"; fragment := "top" |}).
    reflexivity.
  - apply (proj2 (proj2 (proj1 (next_page_url_spec Plain.lib (Shop.cfg 3 Shop.detail true true)
                                  open_bracket 2) eq_refl) ltac:(simpl; lia))).
    reflexivity.
  - apply (next_page_url_spec Plain.lib next_link_cfg Shop.listing 2). discriminate.
Defined.

Example next_page_url_overwrites_page :
  _get_next_page_url Plain.lib (Shop.cfg 3 Shop.detail true true)
    "https://shop.example/watches?page=9&q=titan#top" 2
  = inr (Some "https://shop.example/watches?page=2&q=titan#top").
Proof. reflexivity. Qed.

(** ** Product ids (C6) *)

Section ProductId.

Variable lib : Urllib.

Lemma sanitize_word_ascii (segment : string) :
  PyStr.forallb (fun c => (PyStr.code c <? 128)%N) segment = true ->
  sanitize_word segment = sanitize_ascii segment.
Proof.
  unfold sanitize_word, sanitize_ascii.
  induction segment as [|c s IH]; simpl; [reflexivity|].
  intros H. apply andb_true_iff in H. destruct H as [Hc Hs].
  rewrite (IH Hs). f_equal.
  assert (Hl : PyStr.latin1_alnum c = false).
  { apply N.ltb_lt in Hc. unfold PyStr.latin1_alnum, PyStr.cp, PyStr.between.
    repeat (apply orb_false_iff; split);
      try (apply N.eqb_neq; lia);
      apply andb_false_iff; left; apply N.leb_gt; lia. }
  unfold PyStr.re_word, PyStr.ascii_id_char. rewrite Hl, orb_false_r. reflexivity.
Qed.

Lemma generate_product_id_parsed (interp : Interp) (url : string) (parsed : ParseResult) :
  urlparse lib url = inr parsed ->
  _generate_product_id interp lib url
  = inr match path_parts (path parsed) with
        | _ :: _ => sanitize_word (List.last (path_parts (path parsed)) EmptyString)
        | [] => PyStr.of_Z (py_hash interp url)
        end.
Proof.
  intros H. unfold _generate_product_id. rewrite H.
  fold (path_parts (path parsed)). destruct (path_parts (path parsed)); reflexivity.
Qed.

(** C6, amended. For a URL that [urlparse] accepts: when its path has a
    non-empty segment, the id is the last such segment with every
    character that is neither a word character of [re] (a letter, digit
    or underscore, the accented letters and other alphanumerics above
    127 included) nor a hyphen replaced by an underscore; on a segment
    of ASCII characters this is the replacement of everything outside
    [[A-Za-z0-9_-]], and the id does not depend on the interpreter.
    When there is no such segment the id is [str(hash(url))] for the
    string hash of the running interpreter.  On a URL that [urlparse]
    rejects the call raises that exception. *)
Theorem generate_product_id_spec (interp : Interp) (url : string) :
  (forall parsed, urlparse lib url = inr parsed ->
     let parts := path_parts (path parsed) in
     (parts <> [] ->
        let segment := List.last parts EmptyString in
        _generate_product_id interp lib url = inr (sanitize_word segment) /\
        (PyStr.forallb (fun c => (PyStr.code c <? 128)%N) segment = true ->
           _generate_product_id interp lib url = inr (sanitize_ascii segment)) /\
        forall interp', _generate_product_id interp' lib url
                        = _generate_product_id interp lib url)
     /\ (parts = [] ->
           _generate_product_id interp lib url = inr (PyStr.of_Z (py_hash interp url))))
  /\ (forall msg, urlparse lib url = inl msg ->
        _generate_product_id interp lib url = inl msg).
Proof.
  split.
  - intros parsed Hp parts. split.
    + intros Hne segment. rewrite !(generate_product_id_parsed _ _ Hp). fold parts.
      destruct parts as [|p ps] eqn:E; [congruence|]. fold segment.
      split; [reflexivity|]. split.
      * intros H. now rewrite sanitize_word_ascii.
      * intros interp'. rewrite (generate_product_id_parsed _ _ Hp). fold parts.
        now rewrite E.
    + intros Hnil. rewrite (generate_product_id_parsed _ _ Hp). fold parts.
      now rewrite Hnil.
  - intros msg H. unfold _generate_product_id. now rewrite H.
Qed.

End ProductId.

(** The claim as written fails on a segment with an accented letter:
    [\w] keeps it, the class [[A-Za-z0-9_-]] does not. *)
Lemma accented_letter_is_kept :
  let url := ("https://shop.example/p/" ++ cafe)%string in
  (exists parsed, Plain.urlparse url = inr parsed /\
                  path_parts (path parsed) = ["p"; cafe]) /\
  _generate_product_id python_a Plain.lib url = inr cafe /\
  sanitize_ascii cafe = "caf_" /\
  _generate_product_id python_a Plain.lib url <> inr (sanitize_ascii cafe).
Proof.
  cbv. split; [eexists; split; reflexivity|]. repeat split. discriminate.
Qed.

(** The fallback follows the hash of the process. *)
Example fallback_id_follows_the_hash :
  (exists parsed, Plain.urlparse "https://shop.example" = inr parsed /\
                  path_parts (path parsed) = []) /\
  _generate_product_id python_a Plain.lib "https://shop.example" = inr "20" /\
  _generate_product_id python_b Plain.lib "https://shop.example" = inr "-21".
Proof. cbv. split; [eexists; split; reflexivity|]. repeat split. Qed.

Lemma generate_product_id_spec_witness :
  _generate_product_id python_a Plain.lib "https://shop.example/p/titan-watch-123"
  = inr "titan-watch-123" /\
  _generate_product_id python_b Plain.lib "https://shop.example/p/titan watch!123"
  = inr "titan_watch_123" /\
  _generate_product_id python_a Plain.lib "https://shop.example/"
  = inr (PyStr.of_Z (py_hash python_a "https://shop.example/")) /\
  _generate_product_id python_a Plain.lib open_bracket = inl "Invalid IPv6 URL".
Proof.
  split; [|split; [|split]].
  - apply (proj1 (proj1 (generate_product_id_spec Plain.lib python_a
                           "https://shop.example/p/titan-watch-123")
                    {| scheme := "https"; netloc := "shop.example";
                       path := "/p/titan-watch-123"; params := ""; query := "";
                       fragment := "" |} eq_refl)).
    cbv. discriminate.
  - apply (proj1 (proj1 (generate_product_id_spec Plain.lib python_b
                           "https://shop.example/p/titan watch!123")
                    {| scheme := "https"; netloc := "shop.example";
                       path := "/p/titan watch!123"; params := ""; query := "";
                       fragment := "" |} eq_refl)).
    cbv. discriminate.
  - apply (proj2 (proj1 (generate_product_id_spec Plain.lib python_a "https://shop.example/")
                    {| scheme := "https"; netloc := "shop.example";
                       path := "/"; params := ""; query := "";
                       fragment := "" |} eq_refl)).
    reflexivity.
  - apply (proj2 (generate_product_id_spec Plain.lib python_a open_bracket)).
    reflexivity.
Defined.

(** ** Field extraction (C4, C5) *)

Section Extraction.

Variable interp : Interp.
Variable lib : Urllib.
Variable web : Web.

Ltac split_cases :=
  repeat match goal with
         | |- context [match ?x with _ => _ end] => destruct x eqn:?
         end.

Ltac lookup :=
  repeat (rewrite dict_get_set_other by discriminate);
  try rewrite dict_get_set_same; try reflexivity.

Lemma extract_scalars_other (clean : bool) (body : string) (ds : DetailSelectors)
    (product : Product) (k : string) :
  ~ In k scalar_fields ->
  Dict.get (extract_scalars web clean body ds product) k = Dict.get product k.
Proof.
  intros Hk. unfold extract_scalars, scalar_fields in *. simpl in *.
  assert (Hset : forall (d : Product) f v, In f ["name"; "description"; "brand"; "sub_category"] ->
                   Dict.get (Dict.set d f v) k = Dict.get d k).
  { intros d f v Hf. apply dict_get_set_other. intros ->. simpl in Hf. tauto. }
  unfold scalar_selector; simpl.
  destruct (sel_sub_category ds); [rewrite Hset by (simpl; auto)|];
    (destruct (sel_brand ds); [rewrite Hset by (simpl; auto)|]);
    (destruct (sel_description ds); [rewrite Hset by (simpl; auto)|]);
    (destruct (sel_name ds); [rewrite Hset by (simpl; auto)|]);
    reflexivity.
Qed.

Lemma extract_product_inr (cfg : Config) (url body : string) (ds : DetailSelectors)
    (product : Product) :
  extract_product interp lib web cfg url body ds = inr product ->
  exists id,
    _generate_product_id interp lib url = inr id /\
    with_images (extract_fields web cfg id url body ds) product.
Proof.
  unfold extract_product.
  destruct (_generate_product_id interp lib url) as [err|id]; [discriminate|].
  destruct (extract_image_url lib web url body ds (extract_fields web cfg id url body ds))
    as [err|p1] eqn:E1; [discriminate|].
  intros E2. exists id. split; [reflexivity|]. exists p1. split.
  - unfold extract_image_url in E1.
    destruct (sel_image_url ds) as [selector|]; [|injection E1 as <-; now left].
    destruct (_extract_text web body selector) as [image_url|];
      [|injection E1 as <-; now left].
    destruct (PyStr.truthy image_url); [|injection E1 as <-; now left].
    destruct (urljoin lib url image_url) as [err|absolute_url]; [discriminate|].
    injection E1 as <-. right. now eexists.
  - unfold extract_image_urls_all in E2.
    destruct (get_or (extraction cfg) extract_all_images false);
      [|injection E2 as <-; now left].
    destruct (sel_image_urls_all ds) as [selector|]; [|injection E2 as <-; now left].
    destruct (_extract_text_all web body selector) as [|img rest].
    + injection E2 as <-. right. now eexists.
    + destruct (join_all lib url (img :: rest)) as [err|joined]; [discriminate|].
      injection E2 as <-. right. now eexists.
Qed.

Lemma with_images_get (base product : Product) (k : string) :
  with_images base product -> k <> "image_url" -> k <> "image_urls_all" ->
  Dict.get product k = Dict.get base k.
Proof.
  intros (p1 & H1 & H2) Hk1 Hk2.
  destruct H2 as [->|[v ->]]; [|rewrite dict_get_set_other by congruence];
    (destruct H1 as [->|[v1 ->]]; [|rewrite dict_get_set_other by congruence]);
    reflexivity.
Qed.

Lemma extract_fields_id (cfg : Config) (id url body : string) (ds : DetailSelectors) :
  Dict.get (extract_fields web cfg id url body ds) "id" = Some (VStr id).
Proof.
  unfold extract_fields. cbv zeta.
  split_cases; lookup;
    rewrite extract_scalars_other by (simpl; intuition discriminate); reflexivity.
Qed.

Lemma extract_fields_currency (cfg : Config) (id url body : string) (ds : DetailSelectors) :
  Dict.get (extract_fields web cfg id url body ds) "currency"
  = Some match sel_currency ds with
         | Some selector => of_option (_extract_text web body selector)
         | None => VStr (get_or (extraction cfg) default_currency "INR")
         end.
Proof.
  unfold extract_fields. cbv zeta.
  destruct (sel_currency ds); split_cases; lookup.
Qed.

Lemma extract_fields_features (cfg : Config) (id url body : string) (ds : DetailSelectors) :
  Dict.get (extract_fields web cfg id url body ds) "features"
  = match sel_features ds with
    | Some selector => Some (VList (_extract_text_all web body selector))
    | None => None
    end.
Proof.
  unfold extract_fields. cbv zeta.
  destruct (sel_features ds) as [selector|].
  - assert (Hl : forall l : list string, match l with [] => [] | _ :: _ => l end = l)
      by (intros []; reflexivity).
    rewrite Hl. split_cases; lookup.
  - split_cases; lookup;
      rewrite extract_scalars_other by (simpl; intuition discriminate); reflexivity.
Qed.

Lemma extract_text_all_plain (body selector : string) :
  attr_match selector = None ->
  Forall (fun t => t <> EmptyString) (_extract_text_all web body selector) /\
  forall elements, soup_select web body selector = inr elements ->
    _extract_text_all web body selector
    = List.filter PyStr.truthy (List.map get_text_strip elements).
Proof.
  intros Hm. unfold _extract_text_all. rewrite Hm.
  destruct (soup_select web body selector) as [msg|elements].
  - split; [constructor|discriminate].
  - split.
    + apply Forall_forall. intros t Ht. apply filter_In in Ht.
      destruct Ht as [_ Ht]. destruct t; [discriminate Ht|discriminate].
    + intros ? [= <-]. reflexivity.
Qed.

Lemma detail_try_inr (cfg : Config) (url : string) (product : Product) :
  detail_try interp lib web cfg url = inr product ->
  exists code body ds id,
    client_get web url = HttpResponse code body /\
    is_success code = true /\
    product_detail (selectors cfg) = Some ds /\
    _generate_product_id interp lib url = inr id /\
    with_images (extract_fields web cfg id url body ds) product.
Proof.
  unfold detail_try.
  destruct (client_get web url) as [msg|code body]; [discriminate|].
  destruct (is_success code) eqn:Hs; [|discriminate].
  destruct (product_detail (selectors cfg)) as [ds|]; [|discriminate].
  intros H. apply extract_product_inr in H. destruct H as (id & Hid & Hp).
  now exists code, body, ds, id.
Qed.

(** C4, amended. For every successfully extracted detail page: if the
    schema has a [features] entry, the record's [features] field is the
    multi-mode extraction result, which for a plain (text) selector is
    the list of the matched texts with the empty ones dropped; if the
    schema has no [features] entry, the record has no [features] field. *)
Theorem features_field (cfg : Config) (url : string) (product : Product) :
  detail_try interp lib web cfg url = inr product ->
  exists code body ds,
    client_get web url = HttpResponse code body /\
    product_detail (selectors cfg) = Some ds /\
    (forall selector, sel_features ds = Some selector ->
       Dict.get product "features" = Some (VList (_extract_text_all web body selector)) /\
       (attr_match selector = None ->
          Forall (fun t => t <> EmptyString) (_extract_text_all web body selector) /\
          forall elements, soup_select web body selector = inr elements ->
            _extract_text_all web body selector
            = List.filter PyStr.truthy (List.map get_text_strip elements))) /\
    (sel_features ds = None -> Dict.get product "features" = None).
Proof.
  intros H. destruct (detail_try_inr _ _ H) as (code & body & ds & id & Hget & _ & Hds & _ & Hp).
  exists code, body, ds. split; [exact Hget|]. split; [exact Hds|].
  rewrite (with_images_get Hp) by discriminate. rewrite extract_fields_features. split.
  - intros selector Hsel. split.
    + now rewrite Hsel.
    + apply extract_text_all_plain.
  - intros Hsel. now rewrite Hsel.
Qed.

(** C5, amended. For every successfully extracted detail page: if the
    schema has a [currency] selector, the record's [currency] field is
    that selector's result, none when nothing matched; if the schema has
    no [currency] selector, the field is
    [extraction_opts.default_currency], or ["INR"] when that is not
    configured. *)
Theorem currency_field (cfg : Config) (url : string) (product : Product) :
  detail_try interp lib web cfg url = inr product ->
  exists code body ds,
    client_get web url = HttpResponse code body /\
    product_detail (selectors cfg) = Some ds /\
    (forall selector, sel_currency ds = Some selector ->
       Dict.get product "currency" = Some (of_option (_extract_text web body selector))) /\
    (sel_currency ds = None ->
       Dict.get product "currency"
       = Some (VStr (get_or (extraction cfg) default_currency "INR"))).
Proof.
  intros H. destruct (detail_try_inr _ _ H) as (code & body & ds & id & Hget & _ & Hds & _ & Hp).
  exists code, body, ds. split; [exact Hget|]. split; [exact Hds|].
  rewrite (with_images_get Hp) by discriminate. rewrite extract_fields_currency. split.
  - intros selector Hsel. now rewrite Hsel.
  - intros Hsel. now rewrite Hsel.
Qed.

End Extraction.

(** The claim as written fails: without a [features] selector the
    record has no [features] field at all. *)
Lemma features_absent_without_selector :
  exists product,
    detail_try python_a Plain.lib (Shop.web Shop.nothing_down)
      (Shop.cfg 1 Shop.detail true true) Shop.titan_one = inr product /\
    sel_features Shop.detail = None /\
    Dict.get product "features" = None /\
    Dict.get product "features" <> Some (VList []).
Proof.
  eexists. split; [reflexivity|]. split; [reflexivity|].
  split; [reflexivity|]. discriminate.
Qed.

Lemma features_field_witness :
  exists product code body ds,
    detail_try python_a Plain.lib (Shop.web Shop.nothing_down)
      (Shop.cfg 1 (Shop.detail_with_features "ul.features li") true true) Shop.titan_one
    = inr product /\
    client_get (Shop.web Shop.nothing_down) Shop.titan_one = HttpResponse code body /\
    product_detail (selectors (Shop.cfg 1 (Shop.detail_with_features "ul.features li") true true))
    = Some ds /\
    (forall selector, sel_features ds = Some selector ->
       Dict.get product "features"
       = Some (VList (_extract_text_all (Shop.web Shop.nothing_down) body selector)) /\
       (attr_match selector = None ->
          Forall (fun t => t <> EmptyString)
                 (_extract_text_all (Shop.web Shop.nothing_down) body selector) /\
          forall elements, soup_select (Shop.web Shop.nothing_down) body selector = inr elements ->
            _extract_text_all (Shop.web Shop.nothing_down) body selector
            = List.filter PyStr.truthy (List.map get_text_strip elements))) /\
    (sel_features ds = None -> Dict.get product "features" = None).
Proof.
  eexists.
  assert (H : detail_try python_a Plain.lib (Shop.web Shop.nothing_down)
                (Shop.cfg 1 (Shop.detail_with_features "ul.features li") true true)
                Shop.titan_one = inr _) by reflexivity.
  destruct (features_field _ _ _ _ _ H) as (code & body & ds & Hrest).
  exists code, body, ds. split; [exact H|exact Hrest].
Defined.

Example features_of_titan_one :
  exists product,
    detail_try python_a Plain.lib (Shop.web Shop.nothing_down)
      (Shop.cfg 1 (Shop.detail_with_features "ul.features li") true true) Shop.titan_one
    = inr product /\
    Dict.get product "features" = Some (VList ["Sapphire glass"; "Water resistant"]).
Proof. eexists. split; reflexivity. Qed.

(** The claim as written fails: a [currency] selector that matches
    nothing leaves the field at none; the default is not used. *)
Lemma currency_none_when_selector_matches_nothing :
  exists product,
    detail_try python_a Plain.lib (Shop.web Shop.nothing_down)
      (Shop.cfg 1 Shop.detail true true) Shop.titan_one = inr product /\
    sel_currency Shop.detail = Some "span.currency" /\
    _extract_text (Shop.web Shop.nothing_down) "One" "span.currency" = None /\
    get_or (extraction (Shop.cfg 1 Shop.detail true true)) default_currency "INR" = "EUR" /\
    Dict.get product "currency" = Some VNone /\
    Dict.get product "currency" <> Some (VStr "EUR").
Proof.
  eexists. split; [reflexivity|]. repeat (split; [reflexivity|]). discriminate.
Qed.

Lemma currency_field_witness :
  exists product code body ds,
    detail_try python_a Plain.lib (Shop.web Shop.nothing_down)
      (Shop.cfg 1 (Shop.detail_with_features "ul.features li") true true) Shop.titan_two
    = inr product /\
    client_get (Shop.web Shop.nothing_down) Shop.titan_two = HttpResponse code body /\
    product_detail (selectors (Shop.cfg 1 (Shop.detail_with_features "ul.features li") true true))
    = Some ds /\
    (forall selector, sel_currency ds = Some selector ->
       Dict.get product "currency"
       = Some (of_option (_extract_text (Shop.web Shop.nothing_down) body selector))) /\
    (sel_currency ds = None ->
       Dict.get product "currency"
       = Some (VStr (get_or (extraction
                               (Shop.cfg 1 (Shop.detail_with_features "ul.features li") true true))
                            default_currency "INR"))).
Proof.
  eexists.
  assert (H : detail_try python_a Plain.lib (Shop.web Shop.nothing_down)
                (Shop.cfg 1 (Shop.detail_with_features "ul.features li") true true)
                Shop.titan_two = inr _) by reflexivity.
  destruct (currency_field _ _ _ _ _ H) as (code & body & ds & Hrest).
  exists code, body, ds. split; [exact H|exact Hrest].
Defined.

Example currency_of_titan_two :
  exists product,
    detail_try python_a Plain.lib (Shop.web Shop.nothing_down)
      (Shop.cfg 1 (Shop.detail_with_features "ul.features li") true true) Shop.titan_two
    = inr product /\
    Dict.get product "currency" = Some (VStr "EUR").
Proof. eexists. split; reflexivity. Qed.

(** ** The two phases of [scrape] *)

Lemma product_gets_app (l l' : list Event) :
  product_gets (l ++ l') = product_gets l ++ product_gets l'.
Proof.
  induction l as [|[u|u|d] l IH]; simpl; rewrite ?IH; reflexivity.
Qed.


Lemma onto_fresh (s : Scraper) :
  onto s {| config := config s; products := []; errors := []; client_log := [] |} = s.
Proof.
  destruct s. unfold onto. simpl. now rewrite !app_nil_r.
Qed.

Lemma log_onto (e : Event) (s0 t : Scraper) : log e (onto s0 t) = onto s0 (log e t).
Proof. unfold log, onto. simpl. now rewrite app_assoc. Qed.

Lemma errors_append_onto (url msg phase : string) (s0 t : Scraper) :
  errors_append url msg phase (onto s0 t) = onto s0 (errors_append url msg phase t).
Proof. unfold errors_append, onto. simpl. now rewrite app_assoc. Qed.

Lemma products_append_onto (p : Product) (s0 t : Scraper) :
  products_append p (onto s0 t) = onto s0 (products_append p t).
Proof. unfold products_append, onto. simpl. now rewrite app_assoc. Qed.

(** *** Sleeping *)

Lemma time_sleep_cases (delay : Z) :
  ((0 <= delay)%Z /\ time_sleep delay = inr (Sleep delay)) \/
  ((delay < 0)%Z /\ time_sleep delay = inl "sleep length must be non-negative").
Proof.
  unfold time_sleep. destruct (Z.ltb_spec delay 0); [right|left]; split; auto.
Qed.

Lemma rate_limit_cases (s : Scraper) :
  ((0 <= delay_of (config s))%Z /\
   _rate_limit s = inr (log (Sleep (delay_of (config s))) s)) \/
  ((delay_of (config s) < 0)%Z /\
   _rate_limit s = inl "sleep length must be non-negative").
Proof.
  unfold _rate_limit. fold (delay_of (config s)).
  destruct (time_sleep_cases (delay_of (config s))) as [[H ->]|[H ->]]; auto.
Qed.

Lemma requested_sleeping (cfg : Config) (urls : list string) :
  (0 <= delay_of cfg)%Z -> requested cfg urls = urls.
Proof.
  intros H. unfold requested. destruct (Z.ltb_spec (delay_of cfg) 0); [lia|reflexivity].
Qed.

Section Scrape.

Variable interp : Interp.
Variable lib : Urllib.
Variable web : Web.

Let links := _scrape_product_links lib web.
Let detail := _scrape_product_detail interp lib web.

(** *** The methods keep the configuration and only append *)

Lemma rate_limit_onto (s0 t : Scraper) :
  _rate_limit (onto s0 t)
  = match _rate_limit t with
    | inl msg => inl msg
    | inr t' => inr (onto s0 t')
    end.
Proof.
  unfold _rate_limit. cbn [config onto].
  destruct (time_sleep _); [reflexivity|]. now rewrite log_onto.
Qed.

Lemma rate_limit_config (s s' : Scraper) : _rate_limit s = inr s' -> config s' = config s.
Proof.
  unfold _rate_limit. destruct (time_sleep _); [discriminate|]. now intros [= <-].
Qed.

Lemma links_config (url : string) (s : Scraper) : config (snd (links url s)) = config s.
Proof.
  unfold links, _scrape_product_links. simpl.
  destruct (listing_try lib web (config s) url); reflexivity.
Qed.

Lemma links_onto (url : string) (s0 t : Scraper) :
  links url (onto s0 t) = with_rest s0 (links url t).
Proof.
  unfold links, _scrape_product_links, with_rest. rewrite log_onto. simpl.
  destruct (listing_try lib web (config t) url); simpl; [|reflexivity].
  now rewrite errors_append_onto.
Qed.

Lemma detail_config (url : string) (s : Scraper) : config (snd (detail url s)) = config s.
Proof.
  unfold detail, _scrape_product_detail.
  destruct (rate_limit_cases s) as [[_ ->]|[_ ->]]; [|reflexivity].
  cbn [config log]. destruct (detail_try interp lib web (config s) url); reflexivity.
Qed.

Lemma detail_onto (url : string) (s0 t : Scraper) :
  detail url (onto s0 t) = (fst (detail url t), onto s0 (snd (detail url t))).
Proof.
  unfold detail, _scrape_product_detail. rewrite rate_limit_onto.
  destruct (rate_limit_cases t) as [[_ ->]|[_ ->]].
  - rewrite log_onto. cbn [config onto log].
    destruct (detail_try interp lib web (config t) url); simpl; [|reflexivity].
    now rewrite errors_append_onto.
  - simpl. now rewrite errors_append_onto.
Qed.

Lemma listing_loop_turn (fuel : nat) (limit : Z) (start_url : string) (page_num : Z)
    (url : string) (added : list string) (s : Scraper) :
  PyStr.truthy url = true ->
  (Z.of_nat (List.length (set_order interp added)) < limit)%Z ->
  listing_loop interp lib web (S fuel) limit start_url page_num (Some url) added s
  = match after_page lib web start_url page_num url s with
    | Returned next s' =>
        listing_loop interp lib web fuel limit start_url (page_num + 1) next
          (added ++ fst (links url s)) s'
    | Raised msg s' => Some (Raised msg s')
    end.
Proof.
  intros Hu Hl. apply Z.ltb_lt in Hl. simpl. rewrite Hu, Hl. simpl.
  unfold after_page. fold (links url s).
  pose proof (links_config url s) as Hc.
  destruct (links url s) as [found s1]. simpl in *. rewrite Hc.
  destruct (_get_next_page_url lib (config s) start_url (page_num + 1)) as [msg|[n|]];
    [reflexivity| |reflexivity].
  destruct (PyStr.truthy n); [|reflexivity].
  destruct (_rate_limit s1); reflexivity.
Qed.

Lemma listing_loop_done (fuel : nat) (limit : Z) (start_url : string) (page_num : Z)
    (url : string) (added : list string) (s : Scraper) :
  PyStr.truthy url && (Z.of_nat (List.length (set_order interp added)) <? limit)%Z = false ->
  listing_loop interp lib web fuel limit start_url page_num (Some url) added s
  = Some (Returned added s).
Proof.
  intros H. destruct fuel; simpl; now rewrite H.
Qed.

Lemma listing_loop_over (fuel : nat) (limit : Z) (start_url : string) (page_num : Z)
    (added : list string) (s : Scraper) :
  listing_loop interp lib web fuel limit start_url page_num None added s
  = Some (Returned added s).
Proof. destruct fuel; reflexivity. Qed.

(** How a turn ends, by what the paginator and the sleep do. *)
Lemma after_page_cases (start_url : string) (page_num : Z) (url : string) (s : Scraper) :
  let s1 := snd (links url s) in
  (exists msg,
     _get_next_page_url lib (config s) start_url (page_num + 1) = inl msg /\
     after_page lib web start_url page_num url s = Raised msg s1) \/
  (exists next,
     _get_next_page_url lib (config s) start_url (page_num + 1) = inr next /\
     ((forall n, next = Some n -> PyStr.truthy n = false) /\
      after_page lib web start_url page_num url s = Returned next s1 \/
      (exists n, next = Some n /\ PyStr.truthy n = true) /\
      ((0 <= delay_of (config s))%Z /\
       after_page lib web start_url page_num url s
       = Returned next (log (Sleep (delay_of (config s))) s1) \/
       (delay_of (config s) < 0)%Z /\
       after_page lib web start_url page_num url s
       = Raised "sleep length must be non-negative" s1))).
Proof.
  intros s1. unfold after_page. fold (links url s). fold s1.
  assert (Hc : config s1 = config s) by apply links_config.
  destruct (_get_next_page_url lib (config s) start_url (page_num + 1)) as [msg|next];
    [left; now exists msg|right]. exists next. split; [reflexivity|].
  destruct next as [n|]; [|left; split; [discriminate|reflexivity]].
  destruct (PyStr.truthy n) eqn:Hn.
  - right. split; [now exists n|].
    destruct (rate_limit_cases s1) as [[Hd ->]|[Hd ->]]; rewrite Hc in *; auto.
  - left. split; [|reflexivity]. now intros ? [= <-].
Qed.

Lemma after_page_returned (start_url : string) (page_num : Z) (url : string) (s : Scraper)
    (next : option string) (s' : Scraper) :
  after_page lib web start_url page_num url s = Returned next s' ->
  _get_next_page_url lib (config s) start_url (page_num + 1) = inr next.
Proof.
  intros H. destruct (after_page_cases start_url page_num url s)
    as [(msg & _ & E)|(nx & Hn & [[_ E]|[_ [[_ E]|[_ E]]]])];
    rewrite E in H; try discriminate; now injection H as <- _.
Qed.

Lemma after_page_config (start_url : string) (page_num : Z) (url : string) (s : Scraper) :
  config (state (after_page lib web start_url page_num url s)) = config s.
Proof.
  destruct (after_page_cases start_url page_num url s)
    as [(msg & _ & E)|(nx & Hn & [[_ E]|[_ [[_ E]|[_ E]]]])];
    rewrite E; simpl; apply links_config.
Qed.

Lemma after_page_onto (start_url : string) (page_num : Z) (url : string) (s0 t : Scraper) :
  after_page lib web start_url page_num url (onto s0 t)
  = run_onto s0 (after_page lib web start_url page_num url t).
Proof.
  unfold after_page. fold (links url (onto s0 t)) (links url t).
  rewrite links_onto. cbn [config onto with_rest snd].
  destruct (_get_next_page_url lib (config t) start_url (page_num + 1)) as [msg|[n|]];
    try reflexivity.
  destruct (PyStr.truthy n); [|reflexivity].
  rewrite rate_limit_onto. destruct (_rate_limit (snd (links url t))); reflexivity.
Qed.

(** *** What holds from the scraper before to the scraper after *)

Section Kept.

Variable R : Scraper -> Scraper -> Prop.
Hypothesis R_refl : forall s, R s s.
Hypothesis R_trans : forall a b c, R a b -> R b c -> R a c.
Hypothesis R_page :
  forall start_url page_num url s,
    R s (state (after_page lib web start_url page_num url s)).

Lemma listing_loop_keeps (fuel : nat) :
  forall limit start_url page_num current_url added s r,
    listing_loop interp lib web fuel limit start_url page_num current_url added s = Some r ->
    R s (state r).
Proof.
  induction fuel as [|fuel IH]; intros limit start_url page_num [url|] added s r H;
    try (rewrite listing_loop_over in H; injection H as <-; apply R_refl).
  - simpl in H. destruct (PyStr.truthy url && _); [discriminate|].
    injection H as <-. apply R_refl.
  - destruct (PyStr.truthy url
              && (Z.of_nat (List.length (set_order interp added)) <? limit)%Z) eqn:G.
    + apply andb_true_iff in G. destruct G as [Hu Hl]. apply Z.ltb_lt in Hl.
      rewrite listing_loop_turn in H by assumption.
      pose proof (R_page start_url page_num url s) as Hp.
      destruct (after_page lib web start_url page_num url s) as [next s1|msg s1].
      * apply IH in H. eapply R_trans; [exact Hp|exact H].
      * injection H as <-. exact Hp.
    + rewrite listing_loop_done in H by assumption. injection H as <-. apply R_refl.
Qed.

Lemma listing_phase_keeps (fuel : nat) (limit : Z) (urls : list string) :
  forall added s r,
    listing_phase interp lib web fuel limit urls added s = Some r -> R s (state r).
Proof.
  induction urls as [|start_url rest IH]; intros added s r H; cbn [listing_phase] in H.
  - injection H as <-. apply R_refl.
  - destruct (listing_loop interp lib web fuel limit start_url 1 (Some start_url) added s)
      as [[added1 s1|msg s1]|] eqn:E; [| |discriminate];
      apply listing_loop_keeps in E.
    + apply IH in H. eapply R_trans; [exact E|exact H].
    + injection H as <-. exact E.
Qed.

End Kept.

Lemma listing_loop_config (fuel : nat) (limit : Z) (start_url : string) (page_num : Z)
    (current_url : option string) (added : list string) (s : Scraper) (r : Run (list string)) :
  listing_loop interp lib web fuel limit start_url page_num current_url added s = Some r ->
  config (state r) = config s.
Proof.
  apply (@listing_loop_keeps (fun a b => config b = config a)); try congruence.
  intros. apply after_page_config.
Qed.

Lemma listing_phase_config (fuel : nat) (limit : Z) (urls : list string)
    (added : list string) (s : Scraper) (r : Run (list string)) :
  listing_phase interp lib web fuel limit urls added s = Some r ->
  config (state r) = config s.
Proof.
  apply (@listing_phase_keeps (fun a b => config b = config a)); try congruence.
  intros. apply after_page_config.
Qed.

(** *** The loops end *)

Lemma enough_after_page (fuel : nat) (start_url : string) (page_num : Z) (url : string)
    (s : Scraper) (next : option string) (s' : Scraper) :
  after_page lib web start_url page_num url s = Returned next s' ->
  enough (S fuel) (config s) page_num (Some url) ->
  enough fuel (config s) (page_num + 1) next.
Proof.
  intros Hp H n Hn. specialize (H url eq_refl). subst next.
  apply after_page_returned, next_page_some_within in Hp. lia.
Qed.

Lemma listing_loop_total (fuel : nat) :
  forall limit start_url page_num current_url added s,
    enough fuel (config s) page_num current_url ->
    exists r,
      listing_loop interp lib web fuel limit start_url page_num current_url added s = Some r.
Proof.
  induction fuel as [|fuel IH]; intros limit start_url page_num current_url added s Hf.
  - destruct current_url as [url|]; [|now eexists].
    specialize (Hf url eq_refl). lia.
  - destruct current_url as [url|]; [|now eexists].
    destruct (PyStr.truthy url
              && (Z.of_nat (List.length (set_order interp added)) <? limit)%Z) eqn:G.
    + apply andb_true_iff in G. destruct G as [Hu Hl]. apply Z.ltb_lt in Hl.
      rewrite listing_loop_turn by assumption.
      pose proof (after_page_config start_url page_num url s) as Hc.
      destruct (after_page lib web start_url page_num url s) as [next s1|msg s1] eqn:E;
        [|now eexists].
      apply IH. simpl in Hc. rewrite Hc. eapply enough_after_page; eassumption.
    + rewrite listing_loop_done by assumption. now eexists.
Qed.

Lemma page_budget_enough (cfg : Config) (current_url : option string) :
  enough (page_budget cfg) cfg 1 current_url.
Proof. intros url _. unfold page_budget. lia. Qed.

Lemma listing_phase_total (limit : Z) (urls : list string) :
  forall added s,
    exists r,
      listing_phase interp lib web (page_budget (config s)) limit urls added s = Some r.
Proof.
  induction urls as [|start_url rest IH]; intros added s; cbn [listing_phase].
  - now eexists.
  - destruct (@listing_loop_total (page_budget (config s)) limit start_url 1%Z
                (Some start_url) added s) as (r1 & Hr).
    { apply page_budget_enough. }
    rewrite Hr. pose proof (listing_loop_config _ _ _ _ _ _ _ Hr) as Hc.
    destruct r1 as [added1 s1|msg s1]; [|now eexists].
    simpl in Hc. rewrite <- Hc. apply IH.
Qed.

(** *** When the listing loop returns *)



(** *** When the listing loop raises *)



End Scrape.

(** *** Slices *)






Lemma slice_to_nil (A : Type) (n : Z) : slice_to (@nil A) n = [].
Proof. unfold slice_to. destruct (0 <=? n)%Z; apply firstn_nil. Qed.

Lemma empty_set_iterates_nothing (o : SetOrder) : o [] = [].
Proof.
  destruct (o []) as [|x l] eqn:E; [reflexivity|].
  exfalso. apply (proj1 (iter_elems o [] x)). rewrite E. now left.
Qed.

(** *** What a run adds *)

Section Runs.

Variable interp : Interp.
Variable lib : Urllib.
Variable web : Web.

Lemma listing_loop_onto (fuel : nat) :
  forall limit start_url page_num current_url added s0 t,
    listing_loop interp lib web fuel limit start_url page_num current_url added (onto s0 t)
    = option_map (run_onto s0)
        (listing_loop interp lib web fuel limit start_url page_num current_url added t).
Proof.
  induction fuel as [|fuel IH]; intros limit start_url page_num [url|] added s0 t;
    try reflexivity.
  - simpl. destruct (PyStr.truthy url && _); reflexivity.
  - destruct (PyStr.truthy url
              && (Z.of_nat (List.length (set_order interp added)) <? limit)%Z) eqn:G.
    + apply andb_true_iff in G. destruct G as [Hu Hl]. apply Z.ltb_lt in Hl.
      rewrite !listing_loop_turn by assumption.
      rewrite after_page_onto, (links_onto lib web url s0 t).
      destruct (after_page lib web start_url page_num url t) as [next t1|msg t1];
        cbn [fst snd with_rest run_onto]; [apply IH|reflexivity].
    + now rewrite !listing_loop_done by assumption.
Qed.

Lemma listing_phase_onto (fuel : nat) (limit : Z) (urls : list string) :
  forall added s0 t,
    listing_phase interp lib web fuel limit urls added (onto s0 t)
    = option_map (run_onto s0) (listing_phase interp lib web fuel limit urls added t).
Proof.
  induction urls as [|start_url rest IH]; intros added s0 t; cbn [listing_phase];
    [reflexivity|].
  rewrite listing_loop_onto.
  destruct (listing_loop interp lib web fuel limit start_url 1 (Some start_url) added t)
    as [[added1 t1|msg t1]|]; simpl; [apply IH|reflexivity|reflexivity].
Qed.

Lemma detail_phase_onto (urls : list string) :
  forall s0 t,
    detail_phase interp lib web urls (onto s0 t)
    = onto s0 (detail_phase interp lib web urls t).
Proof.
  induction urls as [|url rest IH]; intros s0 t; cbn [detail_phase]; [reflexivity|].
  rewrite (detail_onto interp lib web url s0 t).
  destruct (_scrape_product_detail interp lib web url t) as [[[|entry p]|] t1];
    cbn [fst snd config onto];
    try (destruct (negb _); [reflexivity|apply IH]).
  rewrite products_append_onto. apply IH.
Qed.

Lemma scrape_with_onto (fuel : nat) (limit : Z) (s0 t : Scraper) :
  scrape_with interp lib web fuel limit (onto s0 t)
  = option_map (products_onto s0) (scrape_with interp lib web fuel limit t).
Proof.
  unfold scrape_with. cbn [config onto]. rewrite listing_phase_onto.
  destruct (listing_phase interp lib web fuel limit (start_urls (config t)) [] t)
    as [[added t1|msg t1]|]; simpl; [|reflexivity|reflexivity].
  now rewrite detail_phase_onto.
Qed.

(** [scrape] ends: the listing phase ends, and the call returns after
    the detail phase or raises what the listing phase raised. *)
Lemma scrape_total (limit : Z) (s : Scraper) :
  exists listed,
    listing_phase interp lib web (page_budget (config s)) limit
      (start_urls (config s)) [] s = Some listed /\
    config (state listed) = config s /\
    scrape interp lib web limit s
    = Some match listed with
           | Returned added s1 =>
               let s' := detail_phase interp lib web
                           (slice_to (set_order interp added) limit) s1 in
               Returned (products s') s'
           | Raised msg s1 => Raised msg s1
           end.
Proof.
  destruct (listing_phase_total interp lib web limit (start_urls (config s)) [] s)
    as (listed & Hr).
  exists listed. split; [exact Hr|]. split; [eapply listing_phase_config; exact Hr|].
  unfold scrape, scrape_with. rewrite Hr. now destruct listed.
Qed.

(** A call of [scrape] on any scraper is the call on a fresh one,
    continued from what the scraper held. *)
Lemma scrape_onto (limit : Z) (s : Scraper) :
  exists r,
    scrape interp lib web limit
      {| config := config s; products := []; errors := []; client_log := [] |} = Some r /\
    scrape interp lib web limit s = Some (products_onto s r).
Proof.
  destruct (scrape_total limit
              {| config := config s; products := []; errors := []; client_log := [] |})
    as (listed & _ & _ & Hr).
  eexists. split; [exact Hr|].
  rewrite <- (onto_fresh s) at 1. unfold scrape in *. cbn [config onto] in *.
  rewrite scrape_with_onto. simpl config in Hr. now rewrite Hr.
Qed.

End Runs.

(** *** The detail phase, URL by URL *)

Section DetailPhase.

Variable interp : Interp.
Variable lib : Urllib.
Variable web : Web.

Lemma detail_try_nonempty (cfg : Config) (url : string) (product : Product) :
  detail_try interp lib web cfg url = inr product -> product <> [].
Proof.
  intros H.
  destruct (detail_try_inr _ _ _ _ _ H) as (code & body & ds & id & _ & _ & _ & _ & Hp).
  intros E. pose proof (with_images_get (k := "id") Hp) as Hid.
  rewrite extract_fields_id, E in Hid. discriminate Hid; discriminate.
Qed.


Lemma detail_result_nonempty (cfg : Config) (url : string) (product : Product) :
  detail_result interp lib web cfg url = inr product -> product <> [].
Proof.
  unfold detail_result. destruct (time_sleep (delay_of cfg)); [discriminate|].
  apply detail_try_nonempty.
Qed.



(** One call of [_scrape_product_detail]. *)
Lemma detail_step (url : string) (s : Scraper) :
  _scrape_product_detail interp lib web url s
  = (match detail_result interp lib web (config s) url with
     | inl _ => None
     | inr product => Some product
     end,
     {| config := config s;
        products := products s;
        errors := errors s ++ detail_errors interp lib web (config s) [url];
        client_log := client_log s ++ detail_log (config s) [url] |}).
Proof.
  unfold _scrape_product_detail, detail_result, detail_errors, detail_log, detail_result.
  unfold _rate_limit. fold (delay_of (config s)).
  destruct (time_sleep (delay_of (config s))) as [msg|slept]; cbn [flat_map].
  - unfold errors_append. now rewrite !app_nil_r.
  - cbn [config log]. destruct (detail_try interp lib web (config s) url) as [msg|product];
      unfold errors_append, log; cbn [config products errors client_log];
      rewrite ?app_nil_r, <- ?app_assoc; reflexivity.
Qed.

Lemma detail_phase_outcome (urls : list string) :
  forall s,
    detail_phase interp lib web urls s
    = onto s (detail_outcome interp lib web (config s) (tried interp lib web (config s) urls)).
Proof.
  induction urls as [|url rest IH]; intros s.
  - unfold tried. destruct (get_or _ _ _); simpl; symmetry; apply onto_fresh.
  - cbn [detail_phase]. rewrite detail_step.
    unfold tried, detail_outcome, detail_products, detail_errors, detail_fails in *.
    destruct s as [c ps es lg]. cbn [config products errors client_log] in *.
    destruct (detail_result interp lib web c url) as [msg|product] eqn:E.
    + destruct (get_or (error_handling c) skip_on_error true) eqn:Hskip; cbn [negb].
      * rewrite IH. cbn [config]. rewrite Hskip.
        unfold onto. cbn [config products errors client_log flat_map detail_log].
        rewrite E. f_equal; now rewrite <- ?app_assoc.
      * unfold onto. cbn [config products errors client_log flat_map up_to_first_failure
                            detail_log].
        rewrite E. cbn [flat_map]. f_equal; now rewrite ?app_nil_r.
    + pose proof (detail_result_nonempty _ _ E) as Hne.
      destruct product as [|entry product]; [congruence|].
      rewrite IH. cbn [config products_append].
      destruct (get_or (error_handling c) skip_on_error true) eqn:Hskip;
        unfold onto, products_append;
        cbn [config products errors client_log flat_map up_to_first_failure detail_log];
        rewrite E; cbn [app]; f_equal; now rewrite <- ?app_assoc.
Qed.


End DetailPhase.

(** *** The listing phase *)

Section ListingPhase.

Variable interp : Interp.
Variable lib : Urllib.
Variable web : Web.

Lemma listing_loop_extends (fuel : nat) (limit : Z) (start_url : string) (page_num : Z)
    (current_url : option string) (added : list string) (s : Scraper) :
  enough fuel (config s) page_num current_url ->
  exists r,
    listing_loop interp lib web fuel limit start_url page_num current_url added s
    = Some (run_onto s r).
Proof.
  intros Hf.
  destruct (@listing_loop_total interp lib web fuel limit start_url page_num current_url added
              {| config := config s; products := []; errors := []; client_log := [] |} Hf)
    as (r & Hr).
  exists r. rewrite <- (onto_fresh s) at 1.
  rewrite listing_loop_onto, Hr. reflexivity.
Qed.

Lemma after_page_product_gets (start_url : string) (page_num : Z) (url : string) (s : Scraper) :
  product_gets (client_log (state (after_page lib web start_url page_num url s)))
  = product_gets (client_log s).
Proof.
  destruct (after_page_cases lib web start_url page_num url s)
    as [(msg & _ & E)|(nx & Hn & [[_ E]|[_ [[_ E]|[_ E]]]])];
    rewrite E; unfold _scrape_product_links, log, errors_append; simpl;
    destruct (listing_try lib web (config s) url); simpl;
    rewrite ?product_gets_app; simpl; now rewrite ?app_nil_r.
Qed.

Lemma listing_loop_product_gets (fuel : nat) (limit : Z) (start_url : string) (page_num : Z)
    (current_url : option string) (added : list string) (s : Scraper) (r : Run (list string)) :
  listing_loop interp lib web fuel limit start_url page_num current_url added s = Some r ->
  product_gets (client_log (state r)) = product_gets (client_log s).
Proof.
  apply (@listing_loop_keeps interp lib web
           (fun a b => product_gets (client_log b) = product_gets (client_log a)));
    try congruence.
  intros. apply after_page_product_gets.
Qed.

Lemma listing_phase_product_gets (fuel : nat) (limit : Z) (urls : list string)
    (added : list string) (s : Scraper) (r : Run (list string)) :
  listing_phase interp lib web fuel limit urls added s = Some r ->
  product_gets (client_log (state r)) = product_gets (client_log s).
Proof.
  apply (@listing_phase_keeps interp lib web
           (fun a b => product_gets (client_log b) = product_gets (client_log a)));
    try congruence.
  intros. apply after_page_product_gets.
Qed.

(** With a limit that is not positive no listing page is fetched. *)
Lemma listing_phase_without_room (fuel : nat) (limit : Z) (urls : list string) (s : Scraper) :
  (limit <= 0)%Z ->
  listing_phase interp lib web fuel limit urls [] s = Some (Returned [] s).
Proof.
  intros Hl. induction urls as [|start_url rest IH]; cbn [listing_phase]; [reflexivity|].
  rewrite listing_loop_done; [exact IH|].
  rewrite empty_set_iterates_nothing. simpl.
  apply andb_false_iff. right. apply Z.ltb_ge. exact Hl.
Qed.


End ListingPhase.

(** *** Runs in two interpreters that agree *)

Section SameInterpreter.

Variables interp interp' : Interp.
Variable lib : Urllib.
Variable web : Web.

Hypothesis same_order : forall added, set_order interp' added = set_order interp added.
Hypothesis same_hash : forall s, py_hash interp' s = py_hash interp s.







End SameInterpreter.

(** ** The detail loop and its failures (C3) *)






(** With a negative delay every attempt fails in the sleep, before its
    request. *)
Example negative_delay_fails_every_attempt :
  let s' := detail_phase python_a Plain.lib (Shop.web Shop.nothing_down)
              [Shop.titan_one; Shop.titan_two] (Shop.fresh negative_delay_cfg) in
  client_log s' = [] /\
  List.map err_error (errors s')
  = ["sleep length must be non-negative"; "sleep length must be non-negative"] /\
  products s' = [].
Proof. repeat split. Qed.

(** ** Accumulation across calls (C10) *)



Example second_call_doubles_the_totals :
  exists s1 s2,
    scrape python_a Plain.lib (Shop.web Shop.one_down) 10
      (Shop.fresh (Shop.cfg 1 Shop.detail true true)) = Some (Returned (products s1) s1) /\
    scrape python_a Plain.lib (Shop.web Shop.one_down) 10 s1
    = Some (Returned (products s2) s2) /\
    (r_total_products (get_results s1), r_total_errors (get_results s1)) = (1, 1) /\
    (r_total_products (get_results s2), r_total_errors (get_results s2)) = (2, 2).
Proof.
  eexists _, _. split; [reflexivity|]. split; [reflexivity|]. split; reflexivity.
Qed.

(** ** Listing failures (C2) *)

Section ListingFailures.

Variable interp : Interp.
Variable lib : Urllib.
Variable web : Web.




End ListingFailures.



(** A negative delay ends the run at the first sleep of the listing
    loop. *)
Example negative_delay_ends_the_listing :
  exists s',
    scrape python_a Plain.lib (Shop.web Shop.nothing_down) 10 (Shop.fresh negative_delay_cfg)
    = Some (Raised "sleep length must be non-negative" s') /\
    client_log s' = [GetListing Shop.listing] /\
    products s' = [] /\ errors s' = [].
Proof. simpl. eexists. split; [reflexivity|]. repeat split. Qed.

(** ** The detail pages attempted by a run (C1) *)




Example limit_cuts_the_frontier :
  let cfg := Shop.cfg 2 Shop.detail true true in
  exists s',
    scrape python_a Plain.lib (Shop.web Shop.nothing_down) 1 (Shop.fresh cfg)
    = Some (Returned (products s') s') /\
    listing_gets (client_log s') = [Shop.listing] /\
    product_gets (client_log s') = [Shop.titan_one].
Proof.
  simpl. eexists. split; [reflexivity|]. split; reflexivity.
Qed.

(** On a start URL that [urlparse] rejects the run ends in the
    paginator, after the request of the first listing page and before
    any detail page. *)
Example unparsable_start_url_ends_the_run :
  exists s',
    scrape python_a Plain.lib (Shop.web Shop.nothing_down) 10 (Shop.fresh open_bracket_cfg)
    = Some (Raised "Invalid IPv6 URL" s') /\
    client_log s' = [GetListing open_bracket] /\
    List.map err_type (errors s') = ["listing"] /\
    products s' = [].
Proof. simpl. eexists. split; [reflexivity|]. repeat split. Qed.

(** ** The selector engine and the cleaners on examples *)

Example attr_match_splits_the_selector :
  attr_match "img.main::attr(src)" = Some ("img.main", "src") /\
  attr_match "a::attr(x)::attr(data(1))) tail" = Some ("a::attr(x)", "data(1))") /\
  attr_match "::attr(src)" = None /\
  attr_match "ul.features li" = None.
Proof. repeat split. Qed.

Example extract_text_of_a_bad_selector :
  _extract_text (Shop.web Shop.nothing_down) "One" "a[" = None /\
  _extract_text_all (Shop.web Shop.nothing_down) "One" "a[" = [].
Proof. split; reflexivity. Qed.

Example extract_text_all_of_attributes :
  _extract_text_all (Shop.web Shop.nothing_down) "One" "img.gallery::attr(src)"
  = ["/img/front.jpg"; ""].
Proof. reflexivity. Qed.

Example clean_text_collapses :
  _clean_text (Some "  Titan   Raga
   Viva ") = Some "Titan Raga Viva" /\
  _clean_text (Some "   ") = None /\
  _clean_text None = None.
Proof. repeat split. Qed.

Example parse_price_examples :
  _parse_price (Some "INR 8,999.00") = Some "8999.00" /\
  _parse_price (Some "free") = None /\
  _parse_price (Some "") = None /\
  _parse_price (Some "Rs. 8,999.00") = None.
Proof. repeat split. Qed.

(** * Further properties *)

(** ** [_clean_text] *)

Lemma cp_eq (n : N) (c : ascii) : PyStr.cp n c = true -> c = ascii_of_N n.
Proof.
  unfold PyStr.cp, PyStr.code. intros H. apply N.eqb_eq in H.
  rewrite <- H. symmetry. apply ascii_N_embedding.
Qed.

Lemma collapse_single_blanks (s : string) :
  forall b, single_blanks b (PyStr.collapse_spaces_from b s) = true.
Proof.
  induction s as [|c s IH]; intros b; simpl; [reflexivity|].
  destruct (PyStr.isspace c) eqn:Hc.
  - destruct b; [apply IH|]. simpl. apply IH.
  - simpl. rewrite Hc. apply IH.
Qed.

Lemma lstrip_no_leading_space (s : string) :
  single_blanks true s = true -> PyStr.lstrip s = s.
Proof.
  destruct s as [|c s]; simpl; [reflexivity|].
  destruct (PyStr.isspace c); [|reflexivity].
  rewrite andb_false_r. discriminate.
Qed.

Lemma lstrip_collapse (s : string) :
  PyStr.lstrip (PyStr.collapse_spaces s) = PyStr.collapse_spaces_from true s.
Proof.
  unfold PyStr.collapse_spaces. destruct s as [|c s]; simpl; [reflexivity|].
  destruct (PyStr.isspace c) eqn:Hc; simpl.
  - apply lstrip_no_leading_space, collapse_single_blanks.
  - now rewrite Hc.
Qed.

Lemma rstrip_spaced (s : string) :
  forall b, single_blanks b s = true ->
            PyStr.rstrip s = EmptyString \/ spaced b (PyStr.rstrip s) = true.
Proof.
  induction s as [|c s IH]; intros b H; simpl in *; [now left|].
  destruct (PyStr.isspace c) eqn:Hc.
  - apply andb_true_iff in H. destruct H as [Hb Hs].
    destruct (IH true Hs) as [E|E].
    + rewrite E. now left.
    + destruct (PyStr.rstrip s) as [|c' r] eqn:Er; [discriminate E|].
      right. simpl in *. now rewrite Hc, Hb.
  - destruct (IH false H) as [E|E].
    + rewrite E. right. simpl. now rewrite Hc.
    + destruct (PyStr.rstrip s) as [|c' r] eqn:Er.
      * right. simpl. now rewrite Hc.
      * right. simpl in *. now rewrite Hc.
Qed.

Lemma spaced_collapse (s : string) :
  forall b, spaced b s = true -> PyStr.collapse_spaces_from b s = s.
Proof.
  induction s as [|c s IH]; intros b H; simpl in *; [reflexivity|].
  destruct (PyStr.isspace c).
  - apply andb_true_iff in H. destruct H as [Hb Hs].
    apply andb_true_iff in Hb. destruct Hb as [Hc Hb].
    destruct b; [discriminate Hb|].
    apply cp_eq in Hc. subst c. f_equal. now apply IH.
  - f_equal. now apply IH.
Qed.

Lemma spaced_rstrip (s : string) :
  forall b, spaced b s = true -> PyStr.rstrip s = s.
Proof.
  induction s as [|c s IH]; intros b H; simpl in *; [reflexivity|].
  destruct (PyStr.isspace c) eqn:Hc.
  - apply andb_true_iff in H. destruct H as [_ Hs].
    rewrite (IH true Hs). destruct s; [discriminate Hs|reflexivity].
  - rewrite (IH false H). destruct s; reflexivity.
Qed.

Lemma spaced_single_blanks (s : string) :
  forall b, spaced b s = true -> single_blanks b s = true.
Proof.
  induction s as [|c s IH]; intros b H; simpl in *; [reflexivity|].
  destruct (PyStr.isspace c); [|now apply IH].
  apply andb_true_iff in H. destruct H as [-> Hs]. simpl. now apply IH.
Qed.

Lemma cleaned_fixed (s : string) :
  cleaned s = true ->
  PyStr.truthy s = true /\ PyStr.strip (PyStr.collapse_spaces s) = s.
Proof.
  unfold cleaned, PyStr.strip. intros H. rewrite lstrip_collapse.
  rewrite (spaced_collapse _ _ H), (spaced_rstrip _ _ H).
  destruct s; [discriminate H|]. now split.
Qed.

Lemma clean_text_some (t r : string) :
  _clean_text (Some t) = Some r ->
  r = PyStr.strip (PyStr.collapse_spaces t) /\ cleaned r = true.
Proof.
  unfold _clean_text. destruct (PyStr.truthy t); [|discriminate]. simpl.
  destruct (PyStr.truthy (PyStr.strip (PyStr.collapse_spaces t))) eqn:Hr; [|discriminate].
  intros [= <-]. split; [reflexivity|].
  unfold PyStr.strip in *. rewrite lstrip_collapse in *.
  destruct (rstrip_spaced _ _ (collapse_single_blanks t true)) as [E|E]; [|exact E].
  rewrite E in Hr. discriminate.
Qed.

(** X1. Whatever [_clean_text] returns is a cleaned text: not empty, no
    space at either end, and between two words exactly one blank (tabs,
    newlines and runs of spaces are gone).  Cleaning a cleaned text
    gives it back. *)
Theorem clean_text_normal_form (text : option string) (r : string) :
  _clean_text text = Some r ->
  cleaned r = true /\
  r <> EmptyString /\
  PyStr.strip r = r /\
  _clean_text (Some r) = Some r.
Proof.
  destruct text as [t|]; [|discriminate]. intros H.
  destruct (clean_text_some _ H) as [_ Hc].
  destruct (cleaned_fixed _ Hc) as [Ht Hfix].
  split; [exact Hc|]. split; [destruct r; [discriminate Ht|discriminate]|]. split.
  - unfold PyStr.strip.
    rewrite lstrip_no_leading_space by now apply spaced_single_blanks.
    now apply spaced_rstrip with (b := true).
  - unfold _clean_text. rewrite Ht. simpl. now rewrite Hfix, Ht.
Qed.

Lemma clean_text_normal_form_witness :
  cleaned "Titan Raga Viva" = true /\
  "Titan Raga Viva" <> EmptyString /\
  PyStr.strip "Titan Raga Viva" = "Titan Raga Viva" /\
  _clean_text (Some "Titan Raga Viva") = Some "Titan Raga Viva".
Proof.
  apply (@clean_text_normal_form (Some "  Titan   Raga
   Viva ") "Titan Raga Viva").
  reflexivity.
Defined.

Lemma ink_collapse (s : string) :
  forall b, ink (PyStr.collapse_spaces_from b s) = ink s.
Proof.
  unfold ink. induction s as [|c s IH]; intros b; simpl; [reflexivity|].
  destruct (PyStr.isspace c) eqn:Hc; simpl.
  - destruct b; simpl; apply IH.
  - rewrite Hc. simpl. now rewrite IH.
Qed.

Lemma ink_lstrip (s : string) : ink (PyStr.lstrip s) = ink s.
Proof.
  unfold ink. induction s as [|c s IH]; simpl; [reflexivity|].
  destruct (PyStr.isspace c) eqn:Hc; simpl; [exact IH|]. now rewrite Hc.
Qed.

Lemma ink_rstrip (s : string) : ink (PyStr.rstrip s) = ink s.
Proof.
  unfold ink. induction s as [|c s IH]; simpl; [reflexivity|].
  destruct (PyStr.rstrip s) as [|c' r] eqn:Er.
  - simpl in IH. destruct (PyStr.isspace c) eqn:Hc; simpl; rewrite ?Hc; simpl;
      now rewrite <- IH.
  - simpl. destruct (PyStr.isspace c); simpl; now rewrite <- IH.
Qed.

Lemma ink_strip_collapse (s : string) :
  ink (PyStr.strip (PyStr.collapse_spaces s)) = ink s.
Proof.
  unfold PyStr.strip, PyStr.collapse_spaces.
  now rewrite ink_rstrip, ink_lstrip, ink_collapse.
Qed.

Lemma cleaned_has_ink (s : string) : cleaned s = true -> ink s <> EmptyString.
Proof.
  unfold cleaned, ink. destruct s as [|c s]; simpl; [discriminate|].
  destruct (PyStr.isspace c); simpl; [now rewrite andb_false_r|discriminate].
Qed.

(** X2. [_clean_text] only touches spaces: the characters of the result
    that are not spaces are those of the text, in the same order.  The
    result is none exactly when the text has no character other than
    spaces (the empty text included). *)
Theorem clean_text_keeps_the_ink (t : string) :
  (forall r, _clean_text (Some t) = Some r -> ink r = ink t) /\
  (_clean_text (Some t) = None <-> ink t = EmptyString).
Proof.
  split.
  - intros r H. destruct (clean_text_some _ H) as [-> _]. apply ink_strip_collapse.
  - split.
    + unfold _clean_text. destruct t as [|c t]; [reflexivity|]. simpl negb. cbv iota.
      destruct (PyStr.truthy (PyStr.strip (PyStr.collapse_spaces (String c t)))) eqn:Hr;
        [discriminate|].
      intros _. rewrite <- ink_strip_collapse.
      destruct (PyStr.strip (PyStr.collapse_spaces (String c t))); [reflexivity|discriminate].
    + intros Hink. destruct (_clean_text (Some t)) as [r|] eqn:H; [|reflexivity].
      destruct (clean_text_some _ H) as [Hr Hc].
      apply cleaned_has_ink in Hc. rewrite Hr, ink_strip_collapse in Hc. contradiction.
Qed.

Lemma clean_text_keeps_the_ink_witness :
  ink "Titan Raga" = ink " Titan
  Raga " /\
  _clean_text (Some "
   ") = None.
Proof.
  split.
  - apply (proj1 (clean_text_keeps_the_ink " Titan
  Raga ") "Titan Raga"). reflexivity.
  - apply (proj2 (clean_text_keeps_the_ink "
   ")). reflexivity.
Defined.

(** ** [_parse_price] *)

Lemma filter_filter (p : ascii -> bool) (s : string) :
  PyStr.filter p (PyStr.filter p s) = PyStr.filter p s.
Proof.
  induction s as [|c s IH]; simpl; [reflexivity|].
  destruct (p c) eqn:Hc; simpl; now rewrite ?Hc, IH.
Qed.

Lemma count_filter (p q : ascii -> bool) (s : string) :
  (forall c, q c = true -> p c = true) ->
  PyStr.count q (PyStr.filter p s) = PyStr.count q s.
Proof.
  intros Hpq. induction s as [|c s IH]; simpl; [reflexivity|].
  destruct (p c) eqn:Hc; simpl; rewrite IH; [reflexivity|].
  destruct (q c) eqn:Hq; [|reflexivity]. apply Hpq in Hq. congruence.
Qed.

Lemma float_accepts_kept (s : string) :
  float_accepts (digits_and_points s)
  = (1 <=? PyStr.count PyStr.re_digit s)%nat && (PyStr.count (PyStr.cp 46) s <=? 1)%nat.
Proof.
  unfold float_accepts, digits_and_points.
  rewrite !count_filter; [reflexivity| |]; intros c H; rewrite H; auto using orb_true_r.
Qed.

Lemma parse_price_kept (p : string) :
  _parse_price (Some p)
  = if float_accepts (digits_and_points p) then Some (digits_and_points p) else None.
Proof.
  unfold _parse_price. fold (digits_and_points p).
  destruct p; [reflexivity|reflexivity].
Qed.

(** X3. [_parse_price] reads nothing but the digits and points of the
    text: two texts with the same digits and points parse alike, so
    currency signs, letters, commas and spaces never matter.  A price
    that was parsed parses to itself.  A text without a digit, and a text
    with two points, has no price. *)
Theorem parse_price_reads_digits_and_points (p : string) :
  (forall q, digits_and_points q = digits_and_points p ->
             _parse_price (Some q) = _parse_price (Some p)) /\
  (forall l, _parse_price (Some p) = Some l ->
             l = digits_and_points p /\ _parse_price (Some l) = Some l) /\
  (PyStr.count PyStr.re_digit p = 0 -> _parse_price (Some p) = None) /\
  (2 <= PyStr.count (PyStr.cp 46) p -> _parse_price (Some p) = None).
Proof.
  split; [|split; [|split]].
  - intros q Hq. now rewrite !parse_price_kept, Hq.
  - intros l H. rewrite parse_price_kept in H.
    destruct (float_accepts (digits_and_points p)) eqn:Ha; [|discriminate].
    injection H as <-. split; [reflexivity|].
    rewrite parse_price_kept. unfold digits_and_points at 1 3.
    rewrite filter_filter. fold (digits_and_points p). now rewrite Ha.
  - intros H. now rewrite parse_price_kept, float_accepts_kept, H.
  - intros H. rewrite parse_price_kept, float_accepts_kept.
    apply Nat.leb_gt in H. now rewrite H, andb_false_r.
Qed.

Lemma parse_price_reads_digits_and_points_witness :
  _parse_price (Some "8999.00") = _parse_price (Some "INR 8,999.00") /\
  _parse_price (Some "8999.00") = Some "8999.00" /\
  _parse_price (Some "free") = None /\
  _parse_price (Some "1.299.00") = None.
Proof.
  split; [|split; [|split]].
  - apply (proj1 (parse_price_reads_digits_and_points "INR 8,999.00")). reflexivity.
  - apply (proj1 (proj2 (parse_price_reads_digits_and_points "INR 8,999.00")) "8999.00").
    reflexivity.
  - apply (proj1 (proj2 (proj2 (parse_price_reads_digits_and_points "free")))). reflexivity.
  - apply (proj2 (proj2 (proj2 (parse_price_reads_digits_and_points "1.299.00")))).
    vm_compute. lia.
Defined.

(** ** The selector pattern *)

Lemma drop_prefix_app (p s r : string) :
  PyStr.drop_prefix p s = Some r -> s = (p ++ r)%string.
Proof.
  revert s. induction p as [|a p IH]; intros [|b s]; simpl; try discriminate.
  - now intros [= <-].
  - now intros [= <-].
  - destruct (Ascii.eqb_spec a b) as [->|]; [|discriminate].
    intros H. now rewrite (IH _ H).
Qed.

Lemma attr_group_shape (s b : string) :
  attr_group s = Some b ->
  b <> EmptyString /\ one_line b = true /\ exists rest, s = (b ++ ")" ++ rest)%string.
Proof.
  unfold one_line. revert b. induction s as [|c s IH]; intros b; simpl; [discriminate|].
  destruct (newline c) eqn:Hc; [discriminate|].
  destruct (attr_group s) as [b'|].
  - intros [= <-]. destruct (IH b' eq_refl) as (_ & Hl & rest & ->).
    split; [discriminate|]. split; [simpl; now rewrite Hc, Hl|]. now exists rest.
  - destruct s as [|c' s']; simpl; [discriminate|].
    destruct (PyStr.cp 41 c') eqn:Hp; [|discriminate].
    intros [= <-]. split; [discriminate|]. split; [simpl; now rewrite Hc|].
    apply cp_eq in Hp. subst c'. now exists s'.
Qed.

(** X4. When the selector matches the attribute pattern, it really is
    [css::attr(name)] followed by whatever is left: both parts are not
    empty and hold no newline.  So a selector in which ["::attr("] does
    not occur is always read as a plain CSS selector. *)
Theorem attr_match_shape (selector css name : string) :
  attr_match selector = Some (css, name) ->
  css <> EmptyString /\ name <> EmptyString /\
  one_line css = true /\ one_line name = true /\
  exists rest, selector = (css ++ "::attr(" ++ name ++ ")" ++ rest)%string.
Proof.
  unfold one_line. revert css.
  induction selector as [|c s IH]; intros css; cbn [attr_match]; [discriminate|].
  destruct (newline c) eqn:Hc; [discriminate|].
  destruct (attr_match s) as [[css' name']|].
  - intros [= <- <-]. destruct (IH css' eq_refl) as (_ & Hn & Hl & Hl' & rest & ->).
    split; [discriminate|]. split; [exact Hn|].
    split; [simpl; now rewrite Hc, Hl|]. split; [exact Hl'|]. now exists rest.
  - destruct (PyStr.drop_prefix "::attr(" s) as [r|] eqn:Hd; [|discriminate].
    destruct (attr_group r) as [b|] eqn:Hg; [|discriminate].
    intros [= <- <-]. apply drop_prefix_app in Hd.
    destruct (attr_group_shape _ Hg) as (Hn & Hl & rest & ->). unfold one_line in Hl.
    split; [discriminate|]. split; [exact Hn|].
    split; [simpl; now rewrite Hc|]. split; [exact Hl|].
    exists rest. now rewrite Hd.
Qed.

Lemma attr_match_shape_witness :
  "a.more" <> EmptyString /\ "data-url" <> EmptyString /\
  one_line "a.more" = true /\ one_line "data-url" = true /\
  exists rest, "a.more::attr(data-url) x" = ("a.more" ++ "::attr(" ++ "data-url" ++ ")" ++ rest)%string.
Proof.
  apply (@attr_match_shape "a.more::attr(data-url) x" "a.more" "data-url"). reflexivity.
Defined.

Lemma plain_attr_name_cons (c : ascii) (s : string) :
  plain_attr_name (String c s) = true ->
  newline c = false /\ PyStr.cp 41 c = false /\ PyStr.cp 58 c = false /\
  plain_attr_name s = true.
Proof.
  unfold plain_attr_name. simpl. intros H. apply andb_true_iff in H.
  destruct H as [Hc Hs]. apply negb_true_iff in Hc.
  apply orb_false_iff in Hc. destruct Hc as [Hc H58].
  apply orb_false_iff in Hc. destruct Hc as [H10 H41]. auto.
Qed.

Lemma not_colon (c : ascii) : PyStr.cp 58 c = false -> Ascii.eqb ":" c = false.
Proof.
  intros H. apply Ascii.eqb_neq. intros <-. discriminate H.
Qed.

Lemma attr_group_of_name (name : string) :
  name <> EmptyString -> plain_attr_name name = true ->
  attr_group (name ++ ")") = Some name.
Proof.
  induction name as [|c n IH]; intros Hne Hok; [congruence|].
  destruct (plain_attr_name_cons _ _ Hok) as (H10 & H41 & _ & Hn).
  cbn [attr_group String.append]. rewrite H10.
  destruct n as [|c' n'].
  - reflexivity.
  - rewrite IH by (discriminate || assumption). reflexivity.
Qed.

Lemma attr_match_in_name (name : string) :
  plain_attr_name name = true -> attr_match (name ++ ")") = None.
Proof.
  induction name as [|c n IH]; intros Hok; [reflexivity|].
  destruct (plain_attr_name_cons _ _ Hok) as (H10 & _ & _ & Hn).
  cbn [attr_match String.append]. rewrite H10, (IH Hn).
  destruct n as [|c' n']; [reflexivity|].
  destruct (plain_attr_name_cons _ _ Hn) as (_ & _ & H58 & _).
  cbn [PyStr.drop_prefix String.append]. now rewrite (not_colon _ H58).
Qed.

Lemma attr_match_in_marker (name : string) :
  plain_attr_name name = true -> attr_match ("::attr(" ++ name ++ ")") = None.
Proof.
  intros Hok. pose proof (attr_match_in_name _ Hok) as Hn.
  assert (Hd : PyStr.drop_prefix "::attr(" (name ++ ")") = None).
  { destruct name as [|c n]; [reflexivity|].
    destruct (plain_attr_name_cons _ _ Hok) as (_ & _ & H58 & _).
    cbn [PyStr.drop_prefix String.append]. now rewrite (not_colon _ H58). }
  cbn [attr_match String.append newline]. simpl PyStr.cp. cbv iota.
  rewrite Hn, Hd. reflexivity.
Qed.

(** X5. Writing a selector as [css::attr(name)] and reading it back
    gives the two parts: for a non-empty one-line [css] and a non-empty
    attribute name without newline, colon or closing parenthesis, the
    pattern matches with exactly these groups, whatever [css] holds. *)
Theorem attr_match_round_trip (css name : string) :
  css <> EmptyString -> one_line css = true ->
  name <> EmptyString -> plain_attr_name name = true ->
  attr_match (css ++ "::attr(" ++ name ++ ")") = Some (css, name).
Proof.
  intros Hc Hl Hn Hok. unfold one_line in Hl.
  induction css as [|c css IH]; [congruence|].
  simpl in Hl. apply andb_true_iff in Hl. destruct Hl as [H10 Hl].
  apply negb_true_iff in H10.
  change ((String c css ++ "::attr(" ++ name ++ ")")%string)
    with (String c (css ++ "::attr(" ++ name ++ ")")%string).
  cbn [attr_match]. rewrite H10.
  destruct css as [|c' css'].
  - change (("" ++ "::attr(" ++ name ++ ")")%string) with ("::attr(" ++ name ++ ")")%string.
    rewrite (attr_match_in_marker _ Hok).
    change (PyStr.drop_prefix "::attr(" ("::attr(" ++ name ++ ")"))
      with (Some (name ++ ")")%string).
    cbv iota. now rewrite attr_group_of_name.
  - rewrite IH by (discriminate || assumption). reflexivity.
Qed.

Lemma attr_match_round_trip_witness :
  attr_match ("div.card > img" ++ "::attr(" ++ "data-src" ++ ")")
  = Some ("div.card > img", "data-src").
Proof.
  apply attr_match_round_trip; [discriminate|reflexivity|discriminate|reflexivity].
Defined.

(** ** Attribute selectors read attributes *)

Lemma attr_values_from_attributes (elements : list Element) (attr_name : string) :
  forall vs, attr_values elements attr_name = inr vs ->
    (List.length vs <= List.length elements)%nat /\
    Forall (fun v => exists elem raw,
                       In elem elements /\
                       Dict.get (attrs elem) attr_name = Some (AStr raw) /\
                       raw <> EmptyString /\ v = PyStr.strip raw) vs.
Proof.
  induction elements as [|e rest IH]; intros vs; simpl.
  - intros [= <-]. split; [auto|constructor].
  - unfold attr_truthy, attr_stripped.
    destruct (Dict.get (attrs e) attr_name) as [[raw|l]|] eqn:Hget.
    + destruct (PyStr.truthy raw) eqn:Ht.
      * destruct (attr_values rest attr_name) as [err|vs'] eqn:Hrest; [discriminate|].
        intros [= <-]. destruct (IH vs' eq_refl) as [Hlen Hall]. split; [simpl; lia|].
        constructor.
        -- exists e, raw. repeat split; auto. intros ->. discriminate Ht.
        -- eapply Forall_impl; [|exact Hall].
           intros v (e' & raw' & Hin & H). exists e', raw'. split; [now right|exact H].
      * intros H. destruct (IH vs H) as [Hlen Hall]. split; [lia|].
        eapply Forall_impl; [|exact Hall].
        intros v (e' & raw' & Hin & H'). exists e', raw'. split; [now right|exact H'].
    + destruct l; [|discriminate].
      intros H. destruct (IH vs H) as [Hlen Hall]. split; [lia|].
      eapply Forall_impl; [|exact Hall].
      intros v (e' & raw' & Hin & H'). exists e', raw'. split; [now right|exact H'].
    + intros H. destruct (IH vs H) as [Hlen Hall]. split; [lia|].
      eapply Forall_impl; [|exact Hall].
      intros v (e' & raw' & Hin & H'). exists e', raw'. split; [now right|exact H'].
Qed.

(** X6. With a selector [css::attr(name)] the extractor returns
    attribute values and never text: in multi mode every value is the
    stripped [name] attribute of an element matched by [css] whose
    attribute is set and not empty, an element without it contributes
    nothing, and there are at most as many values as elements; in single
    mode the value is the stripped attribute of the first match, the
    empty string when that element lacks the attribute, and none when a
    multi-valued attribute cannot be stripped. *)
Theorem attr_selector_reads_attributes (web : Web) (body selector css name : string)
    (elements : list Element) :
  attr_match selector = Some (css, name) ->
  soup_select web body css = inr elements ->
  (List.length (_extract_text_all web body selector) <= List.length elements)%nat /\
  Forall (fun v => exists elem raw,
                     In elem elements /\
                     Dict.get (attrs elem) name = Some (AStr raw) /\
                     raw <> EmptyString /\ v = PyStr.strip raw)
         (_extract_text_all web body selector) /\
  _extract_text web body selector
  = match elements with
    | [] => None
    | elem :: _ =>
        match Dict.get (attrs elem) name with
        | Some (AStr raw) => Some (PyStr.strip raw)
        | Some (AList _) => None
        | None => Some EmptyString
        end
    end.
Proof.
  intros Hm Hs. unfold _extract_text_all, _extract_text. rewrite Hm, Hs.
  split; [|split].
  - destruct (attr_values elements name) as [err|vs] eqn:Hv; [simpl; lia|].
    exact (proj1 (attr_values_from_attributes _ _ Hv)).
  - destruct (attr_values elements name) as [err|vs] eqn:Hv; [constructor|].
    exact (proj2 (attr_values_from_attributes _ _ Hv)).
  - destruct elements as [|elem rest]; [reflexivity|].
    unfold attr_stripped. destruct (Dict.get (attrs elem) name) as [[raw|l]|]; reflexivity.
Qed.

Lemma attr_selector_reads_attributes_witness :
  (List.length (_extract_text_all (Shop.web Shop.nothing_down) "One" "img.gallery::attr(alt)")
   <= 3)%nat /\
  _extract_text (Shop.web Shop.nothing_down) "One" "img.gallery::attr(alt)" = Some "front".
Proof.
  destruct (@attr_selector_reads_attributes (Shop.web Shop.nothing_down) "One"
              "img.gallery::attr(alt)" "img.gallery" "alt"
              [Shop.image "/img/front.jpg" "front"; Shop.image " " "blank";
               Shop.image "" "none"] eq_refl eq_refl) as (Hlen & _ & Hone).
  split; [exact Hlen|exact Hone].
Defined.

(** ** The product record *)

Section ProductRecord.

Variable interp : Interp.
Variable lib : Urllib.
Variable web : Web.
Variables id url cat : string.

Lemma well_formed_set (d : Product) (k : string) (v : Value) :
  ~ In k ["id"; "product_url"; "category"] -> In k product_fields ->
  well_formed id url cat d -> well_formed id url cat (Dict.set d k v).
Proof.
  intros Hk Hf ([rest ->] & Hnd & Hin). split; [|split].
  - exists (Dict.set rest k v). now apply dict_set_after.
  - now apply dict_set_NoDup.
  - rewrite dict_set_keys. destruct (Dict.mem _ k); [exact Hin|].
    apply incl_app; [exact Hin|]. intros x [<-|[]]. exact Hf.
Qed.

Lemma well_formed_start : well_formed id url cat (identity_entries id url cat).
Proof.
  split; [|split].
  - exists []. now rewrite app_nil_r.
  - simpl. repeat constructor; simpl; intuition discriminate.
  - intros x Hx. simpl in *. intuition.
Qed.

Ltac field_set :=
  apply well_formed_set;
  [simpl; intuition discriminate | simpl; auto 20 | ].

Lemma well_formed_scalars (clean : bool) (body : string) (ds : DetailSelectors)
    (d : Product) :
  well_formed id url cat d ->
  well_formed id url cat (extract_scalars web clean body ds d).
Proof.
  intros H. unfold extract_scalars, scalar_fields, scalar_selector. simpl.
  destruct (sel_sub_category ds); [field_set|];
    (destruct (sel_brand ds); [field_set|]);
    (destruct (sel_description ds); [field_set|]);
    (destruct (sel_name ds); [field_set|]); exact H.
Qed.

Lemma well_formed_images (base product : Product) :
  with_images base product ->
  well_formed id url cat base -> well_formed id url cat product.
Proof.
  intros (p1 & H1 & H2) Hb.
  assert (Hp1 : well_formed id url cat p1).
  { destruct H1 as [->|[v ->]]; [exact Hb|]. now field_set. }
  destruct H2 as [->|[v ->]]; [exact Hp1|]. now field_set.
Qed.

End ProductRecord.

Lemma well_formed_fields (web : Web) (cfg : Config) (id url body : string)
    (ds : DetailSelectors) :
  well_formed id url (category cfg) (extract_fields web cfg id url body ds).
Proof.
  unfold extract_fields. cbv zeta.
  change [("id", VStr id); ("product_url", VStr url); ("category", VStr (category cfg))]
    with (identity_entries id url (category cfg)).
  repeat match goal with
         | |- well_formed _ _ _ (Dict.set _ _ _) =>
             apply well_formed_set;
             [simpl; intuition discriminate | simpl; auto 20 | ]
         | |- well_formed _ _ _ (extract_scalars _ _ _ _ _) => apply well_formed_scalars
         | |- well_formed _ _ _ (match ?x with _ => _ end) => destruct x
         | |- well_formed _ _ _ (if ?x then _ else _) => destruct x
         end;
    apply well_formed_start.
Qed.

(** X7. Every record [_scrape_product_detail] returns starts with [id]
    (the id [_generate_product_id] returned), [product_url] (the URL
    that was fetched) and [category] (the one of the configuration), in
    this order; no key occurs twice; and every key is one of the
    thirteen product fields. *)
Theorem product_record_shape (interp : Interp) (lib : Urllib) (web : Web)
    (cfg : Config) (url : string) (product : Product) :
  detail_try interp lib web cfg url = inr product ->
  exists id,
    _generate_product_id interp lib url = inr id /\
    (exists rest, product = identity_entries id url (category cfg) ++ rest) /\
    NoDup (keys product) /\
    incl (keys product) product_fields.
Proof.
  intros H.
  destruct (detail_try_inr _ _ _ _ _ H) as (code & body & ds & id & _ & _ & _ & Hid & Hp).
  exists id. split; [exact Hid|].
  eapply well_formed_images; [exact Hp|]. apply well_formed_fields.
Qed.

Lemma product_record_shape_witness :
  exists product,
    detail_try python_a Plain.lib (Shop.web Shop.nothing_down)
      (Shop.cfg 1 Shop.detail true true) Shop.titan_one = inr product /\
    (exists rest,
       product = identity_entries "titan-one" Shop.titan_one "watches" ++ rest) /\
    NoDup (keys product) /\
    incl (keys product) product_fields.
Proof.
  eexists.
  assert (H : detail_try python_a Plain.lib (Shop.web Shop.nothing_down)
                (Shop.cfg 1 Shop.detail true true) Shop.titan_one = inr _) by reflexivity.
  destruct (product_record_shape _ _ _ _ _ H) as (id & Hid & Hshape).
  injection Hid as <-. split; [exact H|exact Hshape].
Defined.

(** ** Product ids as names *)

Lemma string_of_uint_digits (d : Decimal.uint) :
  PyStr.forallb PyStr.re_digit (NilEmpty.string_of_uint d) = true.
Proof. induction d; simpl; auto. Qed.

Lemma of_Z_shape (n : Z) :
  PyStr.of_Z n <> EmptyString /\ PyStr.forallb word_or_hyphen (PyStr.of_Z n) = true.
Proof.
  assert (Hd : forall s, PyStr.forallb PyStr.re_digit s = true ->
                         PyStr.forallb word_or_hyphen s = true).
  { induction s as [|c s IH]; simpl; [reflexivity|]. intros H.
    apply andb_true_iff in H. destruct H as [Hc Hs]. rewrite (IH Hs), andb_true_r.
    unfold word_or_hyphen, PyStr.re_word, PyStr.ascii_alnum.
    unfold PyStr.re_digit in Hc. now rewrite Hc. }
  assert (Hu : forall d, NilZero.string_of_uint d <> EmptyString /\
                         PyStr.forallb PyStr.re_digit (NilZero.string_of_uint d) = true).
  { intros d. destruct d; simpl; (split; [discriminate|]); try reflexivity;
      apply string_of_uint_digits. }
  unfold PyStr.of_Z. destruct (Z.to_int n) as [d|d]; cbn [NilZero.string_of_int].
  - destruct (Hu d) as [Hne Hdig]. split; [exact Hne|now apply Hd].
  - destruct (Hu d) as [_ Hdig]. split; [discriminate|].
    cbn [PyStr.forallb]. rewrite (Hd _ Hdig). reflexivity.
Qed.

Lemma sanitize_word_shape (segment : string) :
  PyStr.forallb word_or_hyphen (sanitize_word segment) = true /\
  String.length (sanitize_word segment) = String.length segment /\
  PyStr.truthy (sanitize_word segment) = PyStr.truthy segment.
Proof.
  unfold sanitize_word. split; [|split].
  - induction segment as [|c s IH]; simpl; [reflexivity|]. rewrite IH, andb_true_r.
    fold (word_or_hyphen c). destruct (word_or_hyphen c) eqn:Hc; [exact Hc|reflexivity].
  - induction segment as [|c s IH]; simpl; [reflexivity|]. now rewrite IH.
  - destruct segment; reflexivity.
Qed.

Lemma last_In (A : Type) (l : list A) (d : A) : l <> [] -> In (List.last l d) l.
Proof.
  induction l as [|a l IH]; intros H; [congruence|].
  destruct l as [|b l]; [now left|]. right. apply IH. discriminate.
Qed.

(** X8. The id [_generate_product_id] returns is never empty and holds
    only word characters and hyphens (no slash, blank, dot or question
    mark), whether it comes from the path or from the hash; taken from
    the path it has the length of the segment. *)
Theorem product_id_is_a_name (interp : Interp) (lib : Urllib) (url id : string) :
  _generate_product_id interp lib url = inr id ->
  id <> EmptyString /\
  PyStr.forallb word_or_hyphen id = true /\
  (forall parsed, urlparse lib url = inr parsed ->
     path_parts (path parsed) <> [] ->
     String.length id = String.length (List.last (path_parts (path parsed)) EmptyString)).
Proof.
  intros H.
  destruct (urlparse lib url) as [err|parsed] eqn:Hp.
  { unfold _generate_product_id in H. rewrite Hp in H. discriminate. }
  rewrite (generate_product_id_parsed _ _ _ Hp) in H. injection H as <-.
  destruct (path_parts (path parsed)) as [|p ps] eqn:E.
  - destruct (of_Z_shape (py_hash interp url)) as [Hn Hw]. repeat split; auto.
    intros parsed' [= <-]. congruence.
  - destruct (sanitize_word_shape (List.last (p :: ps) EmptyString)) as (Hw & Hlen & Ht).
    assert (Hin : In (List.last (p :: ps) EmptyString) (path_parts (path parsed))).
    { rewrite E. apply last_In. discriminate. }
    unfold path_parts in Hin. apply filter_In in Hin. destruct Hin as [_ Hin].
    rewrite <- Ht in Hin. split; [|split].
    + intros Hid. rewrite Hid in Hin. discriminate.
    + exact Hw.
    + intros parsed' [= <-] _. rewrite E. exact Hlen.
Qed.

Lemma product_id_is_a_name_witness :
  exists id,
    _generate_product_id python_a Plain.lib "https://shop.example/p/titan watch!123" = inr id /\
    id <> EmptyString /\
    String.length id = String.length "titan watch!123".
Proof.
  eexists.
  assert (H : _generate_product_id python_a Plain.lib
                "https://shop.example/p/titan watch!123" = inr _) by reflexivity.
  destruct (product_id_is_a_name _ _ _ H) as (Hne & _ & Hlen).
  split; [exact H|]. split; [exact Hne|].
  apply (Hlen {| scheme := "https"; netloc := "shop.example";
                 path := "/p/titan watch!123"; params := ""; query := "";
                 fragment := "" |} eq_refl).
  cbv. discriminate.
Defined.

(** ** Runs that have nothing to do *)

Section QuietRuns.

Variable interp : Interp.
Variable lib : Urllib.
Variable web : Web.

(** X9. With a limit that is not positive, or without start URLs,
    [scrape] returns at once: no page is requested, nothing is slept,
    and products and errors stay as they were. *)
Theorem scrape_with_nothing_to_do (limit : Z) (s : Scraper) :
  (limit <= 0)%Z \/ start_urls (config s) = [] ->
  scrape interp lib web limit s = Some (Returned (products s) s).
Proof.
  intros H. unfold scrape, scrape_with.
  assert (Hl : listing_phase interp lib web (page_budget (config s)) limit
                 (start_urls (config s)) [] s = Some (Returned [] s)).
  { destruct H as [H|H]; [now apply listing_phase_without_room|now rewrite H]. }
  rewrite Hl. unfold product_urls_to_scrape.
  now rewrite empty_set_iterates_nothing, slice_to_nil.
Qed.

End QuietRuns.

Lemma scrape_with_nothing_to_do_witness :
  scrape python_b Plain.lib (Shop.web Shop.nothing_down) (-3) one_error_unlogged
  = Some (Returned [] one_error_unlogged).
Proof.
  apply scrape_with_nothing_to_do. left. lia.
Defined.

(** ** What a run accounts for *)

Section Accounts.

Variable interp : Interp.
Variable lib : Urllib.
Variable web : Web.

Let listing_error (e : ErrorRecord) : Prop := err_type e = "listing".

(** The products stay and the errors grow by listing-phase records. *)
Let listed (a b : Scraper) : Prop :=
  products b = products a /\
  exists le, errors b = errors a ++ le /\ Forall listing_error le.








End Accounts.


(** ** The listing pages requested *)

Section ListingRequests.

Variable interp : Interp.
Variable lib : Urllib.
Variable web : Web.






End ListingRequests.


Example listing_requests_of_a_run :
  exists s',
    scrape python_a Plain.lib (Shop.web Shop.all_down) 10
      (Shop.fresh (Shop.cfg 2 Shop.detail true true)) = Some (Returned (products s') s') /\
    listing_gets (client_log s')
    = List.concat [[Shop.listing; "https://shop.example/watches?page=2"]].
Proof. simpl. eexists. split; reflexivity. Qed.

(** ** Rate limiting *)

Section Pacing.

Variable interp : Interp.
Variable lib : Urllib.
Variable web : Web.

Lemma well_paced_without_products (ms : Z) (l l' : list Event) :
  product_gets l = [] ->
  (forall armed, well_paced ms armed l' = true) ->
  forall armed, well_paced ms armed (l ++ l') = true.
Proof.
  intros Hl Hl'. induction l as [|[u|u|d] l IH]; intros armed; simpl in *;
    try discriminate; auto.
Qed.

Lemma well_paced_detail_log (cfg : Config) (urls : list string) :
  forall armed, well_paced (delay_of cfg) armed (detail_log cfg urls) = true.
Proof.
  unfold detail_log. destruct (time_sleep_cases (delay_of cfg)) as [[_ ->]|[_ ->]];
    induction urls as [|url rest IH]; intros armed; simpl; auto.
  rewrite Z.eqb_refl. simpl. apply IH.
Qed.

(** X12. In what a call of [scrape] adds to the client log, whether it
    returns or raises, every request of a detail page comes directly
    after a sleep of the configured delay (one second when none is
    configured): no product page is fetched without the pause before
    it. *)
Theorem product_requests_are_paced (limit : Z) (s : Scraper) :
  exists r added_log,
    scrape interp lib web limit s = Some r /\
    client_log (state r) = client_log s ++ added_log /\
    forall armed, well_paced (delay_of (config s)) armed added_log = true.
Proof.
  destruct (scrape_onto interp lib web limit s) as (r & Hr & Hs).
  exists (products_onto s r), (client_log (state r)). split; [exact Hs|].
  split; [now destruct r|].
  destruct (scrape_total interp lib web limit
              {| config := config s; products := []; errors := []; client_log := [] |})
    as (r1 & Hl & Hc & Hr1).
  rewrite Hr in Hr1. injection Hr1 as ->.
  assert (Hpg : product_gets (client_log (state r1)) = [])
    by (apply listing_phase_product_gets in Hl; exact Hl).
  destruct r1 as [added s1|msg s1]; cbn [state] in *.
  - rewrite detail_phase_outcome. cbn [onto client_log detail_outcome].
    apply well_paced_without_products; [exact Hpg|].
    rewrite Hc. apply well_paced_detail_log.
  - intros armed. rewrite <- (app_nil_r (client_log s1)).
    now apply well_paced_without_products.
Qed.

End Pacing.

Lemma product_requests_are_paced_witness :
  exists r added_log,
    scrape python_a Plain.lib (Shop.web Shop.one_down) 10
      (Shop.fresh (Shop.cfg 2 Shop.detail true true)) = Some r /\
    client_log (state r) = [] ++ added_log /\
    well_paced 500 false added_log = true.
Proof.
  destruct (product_requests_are_paced python_a Plain.lib (Shop.web Shop.one_down) 10
              (Shop.fresh (Shop.cfg 2 Shop.detail true true)))
    as (r & added_log & Hr & Hlog & Hpaced).
  exists r, added_log. split; [exact Hr|]. split; [exact Hlog|apply Hpaced].
Defined.

Example pacing_of_a_run :
  exists s',
    scrape python_a Plain.lib (Shop.web Shop.one_down) 10
      (Shop.fresh (Shop.cfg 2 Shop.detail true true)) = Some (Returned (products s') s') /\
    well_paced 500 false (client_log s') = true /\
    well_paced 500 false [GetListing Shop.listing; GetProduct Shop.titan_one] = false.
Proof. eexists. split; [reflexivity|]. split; reflexivity. Qed.

(** ** Links of a listing page *)

Section ListingLinks.

Variable lib : Urllib.
Variable web : Web.

Lemma collect_links_joined (url : string) (elements : list Element) :
  Forall href_is_text elements ->
  collect_links lib url elements = join_all lib url (hrefs elements).
Proof.
  unfold hrefs, href_is_text. induction elements as [|e rest IH]; intros H; [reflexivity|].
  inversion H as [|? ? He Hrest]; subst. specialize (IH Hrest). simpl.
  destruct (Dict.get (attrs e) "href") as [[href|[|x l]]|]; try contradiction;
    try exact IH.
  destruct (PyStr.truthy href); [|exact IH]. simpl.
  destruct (urljoin lib url href); [reflexivity|]. now rewrite IH.
Qed.

Lemma join_all_inr (url : string) (refs : list string) :
  forall joined, join_all lib url refs = inr joined ->
    Forall2 (fun ref absolute_url => urljoin lib url ref = inr absolute_url) refs joined.
Proof.
  induction refs as [|ref rest IH]; intros joined; simpl.
  - intros [= <-]. constructor.
  - destruct (urljoin lib url ref) as [err|absolute_url] eqn:E; [discriminate|].
    destruct (join_all lib url rest) as [err|l]; [discriminate|].
    intros [= <-]. constructor; [exact E|now apply IH].
Qed.

(** When the comprehension raises, it is on the first reference that
    [urljoin] refuses. *)
Lemma join_all_inl (url : string) (refs : list string) (msg : string) :
  join_all lib url refs = inl msg ->
  exists before ref after,
    refs = before ++ ref :: after /\
    urljoin lib url ref = inl msg /\
    Forall (fun r => exists absolute_url, urljoin lib url r = inr absolute_url) before.
Proof.
  induction refs as [|ref rest IH]; simpl; [discriminate|].
  destruct (urljoin lib url ref) as [err|absolute_url] eqn:E.
  - intros [= <-]. exists [], ref, rest. split; [reflexivity|]. split; [exact E|constructor].
  - destruct (join_all lib url rest) as [err|l]; [|discriminate].
    intros [= <-]. destruct (IH eq_refl) as (before & r & after & -> & Hr & Hb).
    exists (ref :: before), r, after. split; [reflexivity|]. split; [exact Hr|].
    constructor; [now exists absolute_url|exact Hb].
Qed.

Lemma hrefs_length (elements : list Element) :
  (List.length (hrefs elements) <= List.length elements)%nat.
Proof.
  unfold hrefs. induction elements as [|e rest IH]; simpl; [lia|].
  rewrite length_app.
  destruct (Dict.get (attrs e) "href") as [[href|l]|]; simpl; try lia.
  destruct (PyStr.truthy href); simpl; lia.
Qed.

(** X13. When a listing page loads (a 2xx answer, a configured
    [product_links] selector that the parser accepts, every [href] a
    string), [_scrape_product_links] records the request, leaves
    [products] as they were and joins the non-empty [href] of each
    matched element to the page URL, in document order, skipping the
    elements without one.  When [urljoin] accepts them all, the links
    returned are these joined URLs and [errors] stay as they were.
    When [urljoin] raises on one of them, the page yields no link at
    all and one listing-phase error with the message of the first
    [href] refused. *)
Theorem listing_links_are_joined (url : string) (s : Scraper) (code : Z)
    (body selector : string) (elements : list Element) :
  client_get web url = HttpResponse code body ->
  is_success code = true ->
  product_links (selectors (config s)) = Some selector ->
  soup_select web body selector = inr elements ->
  Forall href_is_text elements ->
  let '(links, s') := _scrape_product_links lib web url s in
  products s' = products s /\
  client_log s' = client_log s ++ [GetListing url] /\
  ((exists joined,
      Forall2 (fun href absolute_url => urljoin lib url href = inr absolute_url)
              (hrefs elements) joined /\
      links = joined /\
      (List.length links <= List.length elements)%nat /\
      errors s' = errors s) \/
   (exists before href after msg,
      hrefs elements = before ++ href :: after /\
      Forall (fun h => exists absolute_url, urljoin lib url h = inr absolute_url) before /\
      urljoin lib url href = inl msg /\
      links = [] /\
      errors s' = errors s ++ [{| err_url := url; err_error := msg;
                                  err_type := "listing" |}])).
Proof.
  intros Hget Hok Hsel Hsoup Htext.
  unfold _scrape_product_links, listing_try. cbn [config log].
  rewrite Hget, Hok, Hsel, Hsoup, (collect_links_joined url Htext).
  destruct (join_all lib url (hrefs elements)) as [msg|joined] eqn:E.
  - split; [reflexivity|]. split; [reflexivity|]. right.
    destruct (join_all_inl _ _ E) as (before & href & after & Hsplit & Hhref & Hbefore).
    exists before, href, after, msg. repeat split; assumption.
  - split; [reflexivity|]. split; [reflexivity|]. left.
    exists joined. pose proof (join_all_inr _ _ E) as Hall.
    split; [exact Hall|]. split; [reflexivity|]. split; [|reflexivity].
    apply Forall2_length in Hall. rewrite <- Hall. apply hrefs_length.
Qed.

End ListingLinks.

Lemma listing_links_are_joined_witness :
  let '(links, s') :=
    _scrape_product_links Plain.lib (Shop.web Shop.nothing_down) Shop.listing
      (Shop.fresh (Shop.cfg 1 Shop.detail true true)) in
  links = [Shop.titan_one; Shop.titan_two] /\ errors s' = [].
Proof.
  assert (Htext : Forall href_is_text
                    [Shop.anchor "/p/titan-one"; Shop.anchor "/p/titan-two"])
    by (repeat constructor).
  pose proof (@listing_links_are_joined Plain.lib (Shop.web Shop.nothing_down) Shop.listing
                (Shop.fresh (Shop.cfg 1 Shop.detail true true)) 200 "page-1" "a.product"
                [Shop.anchor "/p/titan-one"; Shop.anchor "/p/titan-two"]
                eq_refl eq_refl eq_refl eq_refl Htext) as H.
  destruct (_scrape_product_links Plain.lib (Shop.web Shop.nothing_down) Shop.listing
              (Shop.fresh (Shop.cfg 1 Shop.detail true true))) as [links s'].
  destruct H as (_ & _ & [(joined & Hall & -> & _ & He)|(before & href & after & msg & Hsplit
                                                          & Hbefore & Hhref & _)]).
  - split; [|exact He].
    inversion Hall as [|h1 j1 hs js H1 Hrest]; subst.
    inversion Hrest as [|h2 j2 hs2 js2 H2 Hrest2]; subst.
    inversion Hrest2; subst.
    injection H1 as <-. injection H2 as <-. reflexivity.
  - exfalso.
    assert (Hok : Forall (fun h => exists absolute_url,
                            Plain.urljoin Shop.listing h = inr absolute_url)
                         (hrefs [Shop.anchor "/p/titan-one"; Shop.anchor "/p/titan-two"])).
    { repeat constructor; eexists; reflexivity. }
    rewrite Hsplit in Hok. apply Forall_app in Hok. destruct Hok as [_ Hok].
    inversion Hok as [|? ? [absolute_url Ha] _]; subst.
    change (urljoin Plain.lib Shop.listing href) with (Plain.urljoin Shop.listing href)
      in Hhref.
    congruence.
Defined.

(** A reference [urljoin] refuses costs the page all its links. *)
Example one_bad_href_loses_the_page :
  join_all Plain.lib Shop.listing ["/p/titan-one"; "http://[x"; "/p/titan-two"]
  = inl "Invalid IPv6 URL" /\
  collect_links Plain.lib Shop.listing
    [Shop.anchor "/p/titan-one"; Shop.anchor "http://[x"; Shop.anchor "/p/titan-two"]
  = inl "Invalid IPv6 URL".
Proof. split; reflexivity. Qed.

(** ** Cleaned fields of the record *)

Section CleanFields.

Variable interp : Interp.
Variable lib : Urllib.
Variable web : Web.

Lemma clean_text_none_or_cleaned (text : option string) : none_or_cleaned (_clean_text text).
Proof.
  destruct (_clean_text text) as [r|] eqn:H; simpl; [|exact I].
  destruct text as [t|]; [|discriminate]. now destruct (clean_text_some _ H).
Qed.

Lemma extract_attributes_cleaned (body : string) (attr_selectors : Dict.t string) :
  NoDup (keys (extract_attributes web body attr_selectors)) /\
  incl (keys (extract_attributes web body attr_selectors)) (keys attr_selectors) /\
  forall k v, Dict.get (extract_attributes web body attr_selectors) k = Some v ->
              none_or_cleaned v.
Proof.
  unfold extract_attributes.
  assert (H : forall (sels : Dict.t string) (acc : Dict.t (option string)) (seen : list string),
            NoDup (keys acc) -> incl (keys acc) seen ->
            (forall k v, Dict.get acc k = Some v -> none_or_cleaned v) ->
            let r := fold_left
                       (fun attributes item =>
                          let '(attr_name, attr_selector) := item in
                          match _extract_text web body attr_selector with
                          | Some value =>
                              if PyStr.truthy value
                              then Dict.set attributes attr_name (_clean_text (Some value))
                              else attributes
                          | None => attributes
                          end) sels acc in
            NoDup (keys r) /\ incl (keys r) (seen ++ keys sels) /\
            forall k v, Dict.get r k = Some v -> none_or_cleaned v).
  { induction sels as [|[name sel] sels IH]; intros acc seen Hnd Hin Hv; cbn [fold_left].
    - split; [exact Hnd|]. split; [|exact Hv].
      simpl. now rewrite app_nil_r.
    - cbn [keys List.map fst].
      replace (seen ++ name :: List.map fst sels) with ((seen ++ [name]) ++ keys sels)
        by (now rewrite <- app_assoc).
      apply IH.
      + destruct (_extract_text web body sel) as [value|]; [|exact Hnd].
        destruct (PyStr.truthy value); [now apply dict_set_NoDup|exact Hnd].
      + destruct (_extract_text web body sel) as [value|];
          [destruct (PyStr.truthy value)|]; try (now apply incl_appl).
        rewrite dict_set_keys. destruct (Dict.mem acc name); [now apply incl_appl|].
        apply incl_app; [now apply incl_appl|now apply incl_appr].
      + destruct (_extract_text web body sel) as [value|];
          [destruct (PyStr.truthy value)|]; try exact Hv.
        intros k v. destruct (string_dec name k) as [<-|Hk].
        * rewrite dict_get_set_same. intros [= <-].
          exact (clean_text_none_or_cleaned (Some value)).
        * rewrite dict_get_set_other by exact Hk. apply Hv. }
  destruct (H attr_selectors [] []) as (Hnd & Hin & Hv).
  - constructor.
  - intros x [].
  - intros k v. discriminate.
  - split; [exact Hnd|]. split; [exact Hin|exact Hv].
Qed.

End CleanFields.

Section RecordFields.

Variable interp : Interp.
Variable lib : Urllib.
Variable web : Web.

Ltac cases :=
  repeat match goal with
         | |- context [match ?x with _ => _ end] => destruct x eqn:?
         end.

Ltac look :=
  repeat (rewrite dict_get_set_other by discriminate);
  try rewrite dict_get_set_same; try reflexivity.

Lemma extract_scalars_get (clean : bool) (body : string) (ds : DetailSelectors)
    (d : Product) (field : string) :
  In field scalar_fields ->
  Dict.get (extract_scalars web clean body ds d) field
  = match scalar_selector ds field with
    | Some selector =>
        Some (of_option (if clean then _clean_text (_extract_text web body selector)
                         else _extract_text web body selector))
    | None => Dict.get d field
    end.
Proof.
  unfold scalar_fields. intros [<-|[<-|[<-|[<-|[]]]]];
    unfold extract_scalars, scalar_fields, scalar_selector; simpl;
    destruct (sel_sub_category ds); destruct (sel_brand ds);
    destruct (sel_description ds); destruct (sel_name ds); look.
Qed.

Lemma extract_fields_scalar (cfg : Config) (id url body : string) (ds : DetailSelectors)
    (field : string) :
  In field scalar_fields ->
  Dict.get (extract_fields web cfg id url body ds) field
  = match scalar_selector ds field with
    | Some selector =>
        Some (of_option
                (if get_or (extraction cfg) clean_text true
                 then _clean_text (_extract_text web body selector)
                 else _extract_text web body selector))
    | None => None
    end.
Proof.
  intros Hf.
  assert (Hs := extract_scalars_get (get_or (extraction cfg) clean_text true) body ds
                  (identity_entries id url (category cfg)) Hf).
  assert (Hbase : Dict.get (identity_entries id url (category cfg)) field = None).
  { unfold scalar_fields in Hf. destruct Hf as [<-|[<-|[<-|[<-|[]]]]]; reflexivity. }
  rewrite Hbase in Hs. rewrite <- Hs. clear Hs Hbase.
  unfold extract_fields, identity_entries. cbv zeta.
  unfold scalar_fields in Hf. destruct Hf as [<-|[<-|[<-|[<-|[]]]]]; cases; look.
Qed.

Lemma extract_fields_price (cfg : Config) (id url body : string) (ds : DetailSelectors) :
  Dict.get (extract_fields web cfg id url body ds) "price"
  = match sel_price ds with
    | Some selector =>
        Some (if get_or (extraction cfg) parse_price true
              then match _parse_price (_extract_text web body selector) with
                   | Some literal => VFloat literal
                   | None => VNone
                   end
              else of_option (_clean_text (_extract_text web body selector)))
    | None => None
    end.
Proof.
  unfold extract_fields. cbv zeta.
  destruct (sel_price ds) as [selector|].
  - destruct (get_or (extraction cfg) parse_price true); cases; look.
  - cases; look;
      rewrite extract_scalars_other by (simpl; intuition discriminate); reflexivity.
Qed.

Lemma extract_fields_attributes (cfg : Config) (id url body : string) (ds : DetailSelectors) :
  Dict.get (extract_fields web cfg id url body ds) "attributes"
  = match sel_attributes ds with
    | Some attr_selectors => Some (VDict (extract_attributes web body attr_selectors))
    | None => None
    end.
Proof.
  unfold extract_fields. cbv zeta.
  destruct (sel_attributes ds) as [attr_selectors|].
  - cases; look.
  - cases; look;
      rewrite extract_scalars_other by (simpl; intuition discriminate); reflexivity.
Qed.

(** X14. With [clean_text] enabled (the default), each of [name],
    [description], [brand] and [sub_category] in a returned record is
    none or a cleaned text, never an empty or padded string; the field
    is there exactly when the schema has its selector.  The
    [attributes] of a record, present exactly when the schema declares
    them, are a dictionary whose keys are declared attribute names,
    each once, and whose values are none or cleaned texts. *)
Theorem record_texts_are_cleaned (cfg : Config) (url : string) (product : Product) :
  detail_try interp lib web cfg url = inr product ->
  exists ds,
    product_detail (selectors cfg) = Some ds /\
    (forall field, In field scalar_fields ->
       (Dict.get product field = None <-> scalar_selector ds field = None) /\
       (get_or (extraction cfg) clean_text true = true ->
        forall v, Dict.get product field = Some v ->
                  v = VNone \/ exists r, v = VStr r /\ cleaned r = true)) /\
    match sel_attributes ds with
    | None => Dict.get product "attributes" = None
    | Some attr_selectors =>
        exists d,
          Dict.get product "attributes" = Some (VDict d) /\
          NoDup (keys d) /\
          incl (keys d) (keys attr_selectors) /\
          forall k v, Dict.get d k = Some v -> none_or_cleaned v
    end.
Proof.
  intros H.
  destruct (detail_try_inr _ _ _ _ _ H) as (code & body & ds & id & _ & _ & Hds & _ & Hp).
  exists ds. split; [exact Hds|]. split.
  - intros field Hf.
    assert (Hk : field <> "image_url" /\ field <> "image_urls_all").
    { unfold scalar_fields in Hf.
      destruct Hf as [<-|[<-|[<-|[<-|[]]]]]; split; discriminate. }
    rewrite (with_images_get Hp) by tauto.
    rewrite (extract_fields_scalar cfg id url body ds Hf). split.
    + destruct (scalar_selector ds field); split; congruence.
    + intros Hclean v. rewrite Hclean.
      destruct (scalar_selector ds field) as [selector|]; [|discriminate].
      intros [= <-].
      pose proof (clean_text_none_or_cleaned (_extract_text web body selector)) as Hc.
      destruct (_clean_text (_extract_text web body selector)) as [r|]; simpl in *.
      * right. now exists r.
      * now left.
  - rewrite (with_images_get Hp) by discriminate.
    rewrite extract_fields_attributes. destruct (sel_attributes ds) as [attr_selectors|].
    + exists (extract_attributes web body attr_selectors). split; [reflexivity|].
      apply extract_attributes_cleaned.
    + reflexivity.
Qed.

(** X15. The [price] of a returned record is there exactly when the
    schema has a price selector.  With [parse_price] enabled (the
    default) it is none or a number read from a literal of digits with
    at most one point and at least one digit, never a default such as
    zero; with [parse_price] disabled it is none or the cleaned text. *)
Theorem record_price_is_a_number_or_none (cfg : Config) (url : string) (product : Product) :
  detail_try interp lib web cfg url = inr product ->
  exists ds,
    product_detail (selectors cfg) = Some ds /\
    (Dict.get product "price" = None <-> sel_price ds = None) /\
    forall v, Dict.get product "price" = Some v ->
      if get_or (extraction cfg) parse_price true
      then v = VNone \/
           exists literal, v = VFloat literal /\
                           float_accepts literal = true /\
                           digits_and_points literal = literal
      else v = VNone \/ exists r, v = VStr r /\ cleaned r = true.
Proof.
  intros H.
  destruct (detail_try_inr _ _ _ _ _ H) as (code & body & ds & id & _ & _ & Hds & _ & Hp).
  exists ds. split; [exact Hds|].
  rewrite (with_images_get Hp) by discriminate. rewrite extract_fields_price. split.
  - destruct (sel_price ds); split; congruence.
  - intros v. destruct (sel_price ds) as [selector|]; [|discriminate].
    intros [= <-]. destruct (get_or (extraction cfg) parse_price true).
    + destruct (_extract_text web body selector) as [t|]; [|now left].
      rewrite parse_price_kept.
      destruct (float_accepts (digits_and_points t)) eqn:Ha; [|now left].
      right. exists (digits_and_points t). split; [reflexivity|]. split; [exact Ha|].
      unfold digits_and_points. apply filter_filter.
    + pose proof (clean_text_none_or_cleaned (_extract_text web body selector)) as Hc.
      destruct (_clean_text (_extract_text web body selector)) as [r|]; simpl in *.
      * right. now exists r.
      * now left.
Qed.

End RecordFields.

Lemma record_texts_are_cleaned_witness :
  exists product ds,
    detail_try python_a Plain.lib (Shop.web Shop.nothing_down)
      (Shop.cfg 1 Shop.detail true true) Shop.titan_one = inr product /\
    product_detail (selectors (Shop.cfg 1 Shop.detail true true)) = Some ds /\
    Dict.get product "name" = Some (VStr "Titan One") /\
    cleaned "Titan One" = true.
Proof.
  eexists.
  assert (H : detail_try python_a Plain.lib (Shop.web Shop.nothing_down)
                (Shop.cfg 1 Shop.detail true true) Shop.titan_one = inr _) by reflexivity.
  destruct (record_texts_are_cleaned _ _ _ _ _ H) as (ds & Hds & Hfields & _).
  exists ds. split; [exact H|]. split; [exact Hds|]. split; [reflexivity|].
  destruct (Hfields "name") as [_ Hclean]; [simpl; auto|].
  destruct (Hclean eq_refl (VStr "Titan One") eq_refl) as [Hn|(r & [= <-] & Hr)];
    [discriminate Hn|exact Hr].
Defined.

Lemma record_price_is_a_number_or_none_witness :
  exists product ds,
    detail_try python_a Plain.lib (Shop.web Shop.nothing_down)
      (Shop.cfg 1 Shop.detail true true) Shop.titan_one = inr product /\
    product_detail (selectors (Shop.cfg 1 Shop.detail true true)) = Some ds /\
    (Dict.get product "price" = None <-> sel_price ds = None).
Proof.
  eexists.
  assert (H : detail_try python_a Plain.lib (Shop.web Shop.nothing_down)
                (Shop.cfg 1 Shop.detail true true) Shop.titan_one = inr _) by reflexivity.
  destruct (record_price_is_a_number_or_none _ _ _ _ _ H) as (ds & Hds & Hnone & _).
  exists ds. split; [exact H|]. split; assumption.
Defined.
